(** * Key handling and certificate renewal of the TLS provider

    A shallow embedding of [internal/provider/common_key.go] and of the
    behaviour exercised by [internal/provider/resource_self_signed_cert_test.go],
    with the properties stated about them.

    Conventions.
    - A Go [[]byte] is a [list byte], a Go [string] a [string]; the
      conversions [string(b)] and [[]byte(s)] are written out.
    - A Go [int] is a [Z].
    - A Go result [(T, error)] is a [result T]; an [error] is its message.
    - The standard library, [golang.org/x/crypto/ssh] and the plugin SDK are
      not part of the repository: their functions are the fields of the
      class [GoLibs], and what a property needs from them is a hypothesis
      of that property. *)

From Stdlib Require Import ZArith List Ascii String.
From Stdlib.Strings Require Import Byte.
From stdpp Require Import base gmap strings list pretty.

Open Scope Z_scope.

(** ** Errors and formatting *)

Definition error := string.

Inductive result (A : Type) : Type :=
| Ok (a : A)
| Err (e : error).
Arguments Ok {A} a.
Arguments Err {A} e.

Definition is_Ok {A} (r : result A) : Prop :=
  match r with Ok _ => True | Err _ => False end.

Definition is_Err {A} (r : result A) : Prop :=
  match r with Ok _ => False | Err _ => True end.

(** [%d] *)
Definition fmt_d (n : Z) : string := pretty n.

(** [%v] of a [[]string]: the elements separated by blanks, in brackets. *)
Fixpoint join_blank (l : list string) : string :=
  match l with
  | [] => ""
  | [s] => s
  | s :: l' => s +:+ " " +:+ join_blank l'
  end.

Definition fmt_v_strings (l : list string) : string :=
  "[" +:+ join_blank l +:+ "]".

(** [len] of a slice and of a string. *)
Definition len {A} (l : list A) : Z := Z.of_nat (length l).

(** [sub s t]: [t] occurs in [s]. *)
Fixpoint sub (s t : string) : bool :=
  String.prefix t s ||
  match s with
  | EmptyString => false
  | String _ s' => sub s' t
  end.

(** ** Keys of [crypto/rsa], [crypto/ecdsa] and [crypto/ed25519] *)

Inductive elliptic_Curve := elliptic_P224 | elliptic_P256 | elliptic_P384 | elliptic_P521.

Record rsa_PublicKey := { rsa_N : Z; rsa_E : Z }.
Record rsa_PrivateKey := { rsa_Public : rsa_PublicKey; rsa_D : Z; rsa_Primes : list Z }.

Record ecdsa_PublicKey := { ecdsa_Curve : elliptic_Curve; ecdsa_X : Z; ecdsa_Y : Z }.
Record ecdsa_PrivateKey := { ecdsa_Public : ecdsa_PublicKey; ecdsa_D : Z }.

(** An [ed25519.PrivateKey] is a byte slice: the seed, then the public key. *)
Definition ed25519_PublicKey := list byte.
Definition ed25519_PrivateKey := list byte.
Definition ed25519_Public (priv : ed25519_PrivateKey) : ed25519_PublicKey :=
  drop 32 priv.

(** [crypto.PublicKey] is [any]; the constructor is the dynamic type. *)
Inductive crypto_PublicKey :=
| PubRSA (pub : rsa_PublicKey)             (* *rsa.PublicKey *)
| PubECDSA (pub : ecdsa_PublicKey)         (* *ecdsa.PublicKey *)
| PubED25519 (pub : ed25519_PublicKey)     (* ed25519.PublicKey *)
| PubOther (T : string).

(** [crypto.PrivateKey] is [any]; the constructor is the dynamic type. A
    pointer is modelled by what it points to. [KeyOther T signer] is a value
    of any other type, named [T]; [signer] is its public key when the type
    implements [crypto.Signer]. *)
Inductive crypto_PrivateKey :=
| KeyRSA (k : rsa_PrivateKey)              (* rsa.PrivateKey *)
| KeyRSAPtr (k : rsa_PrivateKey)           (* *rsa.PrivateKey *)
| KeyECDSA (k : ecdsa_PrivateKey)          (* ecdsa.PrivateKey *)
| KeyECDSAPtr (k : ecdsa_PrivateKey)       (* *ecdsa.PrivateKey *)
| KeyED25519 (k : ed25519_PrivateKey)      (* ed25519.PrivateKey *)
| KeyED25519Ptr (k : ed25519_PrivateKey)   (* *ed25519.PrivateKey *)
| KeyOther (T : string) (signer : option crypto_PublicKey).

(** [%T] *)
Definition fmt_T (prvKey : crypto_PrivateKey) : string :=
  match prvKey with
  | KeyRSA _ => "rsa.PrivateKey"
  | KeyRSAPtr _ => "*rsa.PrivateKey"
  | KeyECDSA _ => "ecdsa.PrivateKey"
  | KeyECDSAPtr _ => "*ecdsa.PrivateKey"
  | KeyED25519 _ => "ed25519.PrivateKey"
  | KeyED25519Ptr _ => "*ed25519.PrivateKey"
  | KeyOther T _ => T
  end.

(** The type assertion [prvKey.(crypto.Signer)] followed by [Public()].
    [Public] and [Sign] have pointer receivers on [rsa.PrivateKey] and
    [ecdsa.PrivateKey], so only the pointer types are signers; they have
    value receivers on [ed25519.PrivateKey], so the value type and the
    pointer type both are. *)
Definition crypto_Signer (prvKey : crypto_PrivateKey) : option crypto_PublicKey :=
  match prvKey with
  | KeyRSA _ => None
  | KeyRSAPtr k => Some (PubRSA (rsa_Public k))
  | KeyECDSA _ => None
  | KeyECDSAPtr k => Some (PubECDSA (ecdsa_Public k))
  | KeyED25519 k => Some (PubED25519 (ed25519_Public k))
  | KeyED25519Ptr k => Some (PubED25519 (ed25519_Public k))
  | KeyOther _ signer => signer
  end.

(** What [x509.ParsePKCS8PrivateKey] returns: a [*rsa.PrivateKey], a
    [*ecdsa.PrivateKey], an [ed25519.PrivateKey] (not a pointer), or a
    [*ecdh.PrivateKey] (for X25519). The last type is not named by the
    switch of [privateKeyToAlgorithm] and, having no [Sign] method, is no
    [crypto.Signer]. *)
Inductive pkcs8_Key :=
| PKCS8RSA (k : rsa_PrivateKey)
| PKCS8ECDSA (k : ecdsa_PrivateKey)
| PKCS8ED25519 (k : ed25519_PrivateKey)
| PKCS8ECDH (k : list byte).

Definition pkcs8_any (k : pkcs8_Key) : crypto_PrivateKey :=
  match k with
  | PKCS8RSA k => KeyRSAPtr k
  | PKCS8ECDSA k => KeyECDSAPtr k
  | PKCS8ED25519 k => KeyED25519 k
  | PKCS8ECDH _ => KeyOther "*ecdh.PrivateKey" None
  end.

(** ** [encoding/pem] *)

Record pem_Block := {
  pem_Type : string;
  pem_Headers : gmap string string;
  pem_Bytes : list byte }.

(** ** The resource data of the plugin SDK

    [schema.ResourceData]: the attributes the schema declares, the
    identifier, and the attribute values, integers and strings apart as
    the schema types them. *)

Record ResourceData := {
  rd_schema : gset string;
  rd_id : string;
  rd_int : gmap string Z;
  rd_str : gmap string string }.

(** [d.Get(key).(int)] and [d.Get(key).(string)]: the zero value when unset. *)
Definition d_GetInt (d : ResourceData) (key : string) : Z :=
  default 0 (rd_int d !! key).

Definition d_GetString (d : ResourceData) (key : string) : string :=
  default "" (rd_str d !! key).

(** [d.SetId(v)] *)
Definition d_SetId (d : ResourceData) (v : string) : ResourceData :=
  {| rd_schema := rd_schema d; rd_id := v; rd_int := rd_int d; rd_str := rd_str d |}.

(** [diag.Diagnostics]; [nil] is the empty list. *)
Record diag_Diagnostic := { diag_Summary : string }.
Definition diag_Diagnostics := list diag_Diagnostic.

Definition diag_Errorf (msg : string) : diag_Diagnostics :=
  [ {| diag_Summary := msg |} ].

Definition HasError (ds : diag_Diagnostics) : Prop := ds ≠ [].

(** ** The libraries the provider calls *)

Class GoLibs := {
  (** [crypto/rand]: the state of [rand.Reader] *)
  rand_Reader : Type;
  rsa_GenerateKey : rand_Reader → Z → result rsa_PrivateKey;
  ecdsa_GenerateKey : elliptic_Curve → rand_Reader → result ecdsa_PrivateKey;
  ed25519_GenerateKey :
    rand_Reader → result (ed25519_PublicKey * ed25519_PrivateKey);
  (** [crypto/x509] *)
  x509_ParsePKCS1PrivateKey : list byte → result rsa_PrivateKey;
  x509_ParseECPrivateKey : list byte → result ecdsa_PrivateKey;
  x509_ParsePKCS8PrivateKey : list byte → result pkcs8_Key;
  x509_MarshalPKCS1PrivateKey : rsa_PrivateKey → list byte;
  x509_MarshalECPrivateKey : ecdsa_PrivateKey → result (list byte);
  x509_MarshalPKCS8PrivateKey : crypto_PrivateKey → result (list byte);
  x509_MarshalPKIXPublicKey : crypto_PublicKey → result (list byte);
  (** [encoding/pem] *)
  pem_Decode : list byte → option pem_Block * list byte;
  pem_EncodeToMemory : pem_Block → list byte;
  (** [golang.org/x/crypto/ssh] *)
  ssh_PublicKey : Type;
  ssh_NewPublicKey : crypto_PublicKey → result ssh_PublicKey;
  ssh_MarshalAuthorizedKey : ssh_PublicKey → list byte;
  ssh_FingerprintLegacyMD5 : ssh_PublicKey → string;
  ssh_FingerprintSHA256 : ssh_PublicKey → string;
  ssh_ParseRawPrivateKey : list byte → result crypto_PrivateKey;
  (** the SDK: the error of [d.Set] for a key the schema does not have *)
  schema_SetError : string → error;
  (** [hashForState], of the provider's [util.go]: a hash of a string *)
  hashForState : string → string;
  (** the error of [PEMBlockToPEMPreamble], of the provider's [types.go],
      for a label it does not know *)
  unknownPreambleError : string → error }.

(** ** [types.go]: algorithms, curves and PEM preambles

    The file is not among the sources; its names are used by
    [common_key.go], which shows [Algorithm] and [ECDSACurve] to be string
    types (the empty string is returned as "no algorithm", and a curve is
    converted from a string attribute). *)

Definition Algorithm := string.

(** Modelled from the spec: the missing constants of [types.go], "AlgorithmTag:
    closed enumeration {RSA, ECDSA, ED25519}"; the values are the ones the
    tests read back from the attribute [key_algorithm]. *)
Definition RSA : Algorithm := "RSA".
Definition ECDSA : Algorithm := "ECDSA".
Definition ED25519 : Algorithm := "ED25519".

Definition ECDSACurve := string.

(** Modelled from the spec: the missing constants of [types.go], "ECDSA curve
    name from {P224,P256,P384,P521}". *)
Definition P224 : ECDSACurve := "P224".
Definition P256 : ECDSACurve := "P256".
Definition P384 : ECDSACurve := "P384".
Definition P521 : ECDSACurve := "P521".

(** Modelled from the spec: the missing [SupportedECDSACurves] of
    [types.go], the curve names of "CurveTag: closed enumeration {P224,
    P256, P384, P521}". *)
Definition SupportedECDSACurves : list string := [P224; P256; P384; P521].

(** Modelled from the spec: the missing type [PEMPreamble] of [types.go], "a
    typed enumeration (private key variants, public key, certificate,
    certificate request)". *)
Inductive PEMPreamble :=
| PreamblePrivateKeyRSA
| PreamblePrivateKeyEC
| PreamblePrivateKeyPKCS8
| PreamblePublicKey
| PreambleCertificate
| PreambleCertificateRequest.

#[global] Instance PEMPreamble_eq_dec : EqDecision PEMPreamble.
Proof. solve_decision. Defined.

Definition PEMPreamble_index (p : PEMPreamble) : nat :=
  match p with
  | PreamblePrivateKeyRSA => 0
  | PreamblePrivateKeyEC => 1
  | PreamblePrivateKeyPKCS8 => 2
  | PreamblePublicKey => 3
  | PreambleCertificate => 4
  | PreambleCertificateRequest => 5
  end.

Definition PEMPreamble_of_index (n : nat) : PEMPreamble :=
  match n with
  | 0 => PreamblePrivateKeyRSA
  | 1 => PreamblePrivateKeyEC
  | 2 => PreamblePrivateKeyPKCS8
  | 3 => PreamblePublicKey
  | 4 => PreambleCertificate
  | _ => PreambleCertificateRequest
  end%nat.

#[global] Instance PEMPreamble_countable : Countable PEMPreamble.
Proof.
  refine (inj_countable' PEMPreamble_index PEMPreamble_of_index _).
  by intros [].
Defined.

(** Modelled from the spec: the missing method [String] of [types.go], the
    label of each preamble ("RSA PRIVATE KEY", "EC PRIVATE KEY", "PRIVATE
    KEY" [PKCS8], "PUBLIC KEY", "CERTIFICATE"). *)
Definition PEMPreamble_String (p : PEMPreamble) : string :=
  match p with
  | PreamblePrivateKeyRSA => "RSA PRIVATE KEY"
  | PreamblePrivateKeyEC => "EC PRIVATE KEY"
  | PreamblePrivateKeyPKCS8 => "PRIVATE KEY"
  | PreamblePublicKey => "PUBLIC KEY"
  | PreambleCertificate => "CERTIFICATE"
  | PreambleCertificateRequest => "CERTIFICATE REQUEST"
  end.

Definition allPEMPreambles : list PEMPreamble :=
  [ PreamblePrivateKeyRSA; PreamblePrivateKeyEC; PreamblePrivateKeyPKCS8;
    PreamblePublicKey; PreambleCertificate; PreambleCertificateRequest ].

Section Provider.

Context `{GoLibs}.

(** Modelled from the spec: the missing [PEMBlockToPEMPreamble] of
    [types.go], which "maps textual PEM block labels to a typed
    enumeration ... and back; pure lookup table". *)
Definition PEMBlockToPEMPreamble (block : pem_Block) : result PEMPreamble :=
  match find (λ p, String.eqb (PEMPreamble_String p) (pem_Type block)) allPEMPreambles with
  | Some p => Ok p
  | None => Err (unknownPreambleError (pem_Type block))
  end.

(** [d.Set(key, value)] for a string value: fails, and writes nothing, when
    the schema has no attribute [key]. *)
Definition d_Set (d : ResourceData) (key value : string) : ResourceData * option error :=
  if decide (key ∈ rd_schema d)
  then ({| rd_schema := rd_schema d; rd_id := rd_id d; rd_int := rd_int d;
           rd_str := <[key := value]> (rd_str d) |}, None)
  else (d, Some (schema_SetError key)).

(** ** [common_key.go] *)

(** [keyGenerator]: reads the resource data and draws from [rand.Reader]. *)
Definition keyGenerator : Type :=
  ResourceData → rand_Reader → result crypto_PrivateKey.

(** [keyParser] *)
Definition keyParser : Type := list byte → result crypto_PrivateKey.

(** The conversion of a typed result to [(crypto.PrivateKey, error)] at a
    [return f(...)]. *)
Definition as_PrivateKey {A} (inj : A → crypto_PrivateKey) (r : result A)
  : result crypto_PrivateKey :=
  match r with
  | Ok k => Ok (inj k)
  | Err e => Err e
  end.

Definition generateRSA : keyGenerator := λ d rand,
  let rsaBits := d_GetInt d "rsa_bits" in
  as_PrivateKey KeyRSAPtr (rsa_GenerateKey rand rsaBits).

Definition generateECDSA : keyGenerator := λ d rand,
  let curve : ECDSACurve := d_GetString d "ecdsa_curve" in
  if String.eqb curve P224 then
    as_PrivateKey KeyECDSAPtr (ecdsa_GenerateKey elliptic_P224 rand)
  else if String.eqb curve P256 then
    as_PrivateKey KeyECDSAPtr (ecdsa_GenerateKey elliptic_P256 rand)
  else if String.eqb curve P384 then
    as_PrivateKey KeyECDSAPtr (ecdsa_GenerateKey elliptic_P384 rand)
  else if String.eqb curve P521 then
    as_PrivateKey KeyECDSAPtr (ecdsa_GenerateKey elliptic_P521 rand)
  else
    Err ("invalid ECDSA curve; supported values are: "
         +:+ fmt_v_strings SupportedECDSACurves).

Definition generateED25519 : keyGenerator := λ d rand,
  match ed25519_GenerateKey rand with
  | Err err => Err ("failed to generate ED25519 key: " +:+ err)
  | Ok (_, key) => Ok (KeyED25519 key)
  end.

(** [keyGenerators]: a [keyGenerator] for each [Algorithm]. *)
Definition keyGenerators : gmap Algorithm keyGenerator :=
  <[RSA := generateRSA]> (<[ECDSA := generateECDSA]> (<[ED25519 := generateED25519]> ∅)).

(** [keyParsers]: a [keyParser] for each [PEMPreamble] of a private key. *)
Definition keyParsers : gmap PEMPreamble keyParser :=
  <[PreamblePrivateKeyRSA := λ der, as_PrivateKey KeyRSAPtr (x509_ParsePKCS1PrivateKey der)]>
  (<[PreamblePrivateKeyEC := λ der, as_PrivateKey KeyECDSAPtr (x509_ParseECPrivateKey der)]>
  (<[PreamblePrivateKeyPKCS8 := λ der, as_PrivateKey pkcs8_any (x509_ParsePKCS8PrivateKey der)]>
   ∅)).

(** [privateKeyToPublicKey] *)
Definition privateKeyToPublicKey (prvKey : crypto_PrivateKey) : result crypto_PublicKey :=
  match crypto_Signer prvKey with
  | None => Err ("unsupported private key type: " +:+ fmt_T prvKey)
  | Some pub => Ok pub
  end.

(** [privateKeyToAlgorithm] *)
Definition privateKeyToAlgorithm (prvKey : crypto_PrivateKey) : result Algorithm :=
  match prvKey with
  | KeyRSA _ | KeyRSAPtr _ => Ok RSA
  | KeyECDSA _ | KeyECDSAPtr _ => Ok ECDSA
  | KeyED25519 _ | KeyED25519Ptr _ => Ok ED25519
  | KeyOther _ _ => Err ("unsupported private key type: " +:+ fmt_T prvKey)
  end.

(** [parsePrivateKeyPEM] *)
Definition parsePrivateKeyPEM (keyPEMBytes : list byte)
  : result (crypto_PrivateKey * Algorithm) :=
  let '(pemBlock, rest) := pem_Decode keyPEMBytes in
  match pemBlock with
  | None =>
      Err ("failed to decode PEM block: decoded bytes "
           +:+ fmt_d (len keyPEMBytes - len rest)
           +:+ ", undecoded " +:+ fmt_d (len rest))
  | Some pemBlock =>
      match PEMBlockToPEMPreamble pemBlock with
      | Err err => Err err
      | Ok preamble =>
          match keyParsers !! preamble with
          | None =>
              Err ("unable to determine parser for PEM preamble: "
                   +:+ PEMPreamble_String preamble)
          | Some parser =>
              match parser (pem_Bytes pemBlock) with
              | Err err =>
                  Err ("failed to parse private key given PEM preamble '"
                       +:+ PEMPreamble_String preamble +:+ "': " +:+ err)
              | Ok prvKey =>
                  match privateKeyToAlgorithm prvKey with
                  | Err err =>
                      Err ("failed to determine key algorithm for private key of type "
                           +:+ fmt_T prvKey +:+ ": " +:+ err)
                  | Ok algorithm => Ok (prvKey, algorithm)
                  end
              end
          end
      end
  end.

(** [parsePrivateKeyOpenSSHPEM] *)
Definition parsePrivateKeyOpenSSHPEM (keyOpenSSHPEMBytes : list byte)
  : result (crypto_PrivateKey * Algorithm) :=
  match ssh_ParseRawPrivateKey keyOpenSSHPEMBytes with
  | Err err => Err ("failed to parse openssh private key: " +:+ err)
  | Ok prvKey =>
      match privateKeyToAlgorithm prvKey with
      | Err err =>
          Err ("failed to determine key algorithm for private key of type "
               +:+ fmt_T prvKey +:+ ": " +:+ err)
      | Ok algorithm => Ok (prvKey, algorithm)
      end
  end.

(** [setPublicKeyAttributes]: the resource data after the call, and the
    diagnostics returned. *)
Definition setPublicKeyAttributes (d : ResourceData) (prvKey : crypto_PrivateKey)
  : ResourceData * diag_Diagnostics :=
  match privateKeyToPublicKey prvKey with
  | Err err => (d, diag_Errorf ("failed to get public key from private key: " +:+ err))
  | Ok pubKey =>
  match x509_MarshalPKIXPublicKey pubKey with
  | Err err => (d, diag_Errorf ("failed to marshal public key: " +:+ err))
  | Ok pubKeyBytes =>
  let pubKeyPemBlock :=
    {| pem_Type := PEMPreamble_String PreamblePublicKey;
       pem_Headers := ∅;
       pem_Bytes := pubKeyBytes |} in
  let d := d_SetId d (hashForState (string_of_list_byte pubKeyBytes)) in
  match d_Set d "public_key_pem" (string_of_list_byte (pem_EncodeToMemory pubKeyPemBlock)) with
  | (d, Some err) => (d, diag_Errorf ("error setting value on key 'public_key_pem': " +:+ err))
  | (d, None) =>
  let '(pubKeySSH, pubKeySSHFingerprintMD5, pubKeySSHFingerprintSHA256) :=
    match ssh_NewPublicKey pubKey with
    | Ok sshPubKey =>
        let sshPubKeyBytes := ssh_MarshalAuthorizedKey sshPubKey in
        (string_of_list_byte sshPubKeyBytes,
         ssh_FingerprintLegacyMD5 sshPubKey,
         ssh_FingerprintSHA256 sshPubKey)
    | Err _ => ("", "", "")
    end in
  match d_Set d "public_key_openssh" pubKeySSH with
  | (d, Some err) => (d, diag_Errorf ("error setting value on key 'public_key_openssh': " +:+ err))
  | (d, None) =>
  match d_Set d "public_key_fingerprint_md5" pubKeySSHFingerprintMD5 with
  | (d, Some err) =>
      (d, diag_Errorf ("error setting value on key 'public_key_fingerprint_md5': " +:+ err))
  | (d, None) =>
  match d_Set d "public_key_fingerprint_sha256" pubKeySSHFingerprintSHA256 with
  | (d, Some err) =>
      (d, diag_Errorf ("error setting value on key 'public_key_fingerprint_sha256': " +:+ err))
  | (d, None) => (d, [])
  end end end end end end.

End Provider.

(** ** The export of a private key

    The resource that writes a generated key out as PEM is not among the
    sources. *)

Section PrivateKeyExport.

Context `{GoLibs}.

(** Modelled from the spec: the missing export of the private key, "private-key
    PEM (format depends on algorithm per standard conventions)": PKCS#1
    under "RSA PRIVATE KEY", SEC 1 under "EC PRIVATE KEY", PKCS#8 under
    "PRIVATE KEY", for the key types the generators produce. *)
Definition privateKeyPEMBlock (prvKey : crypto_PrivateKey) : result pem_Block :=
  match prvKey with
  | KeyRSAPtr k =>
      Ok {| pem_Type := PEMPreamble_String PreamblePrivateKeyRSA;
            pem_Headers := ∅;
            pem_Bytes := x509_MarshalPKCS1PrivateKey k |}
  | KeyECDSAPtr k =>
      match x509_MarshalECPrivateKey k with
      | Err err => Err ("error encoding key to PEM: " +:+ err)
      | Ok keyBytes =>
          Ok {| pem_Type := PEMPreamble_String PreamblePrivateKeyEC;
                pem_Headers := ∅;
                pem_Bytes := keyBytes |}
      end
  | KeyED25519 k =>
      match x509_MarshalPKCS8PrivateKey prvKey with
      | Err err => Err ("error encoding key to PEM: " +:+ err)
      | Ok keyBytes =>
          Ok {| pem_Type := PEMPreamble_String PreamblePrivateKeyPKCS8;
                pem_Headers := ∅;
                pem_Bytes := keyBytes |}
      end
  | _ => Err ("unsupported private key type: " +:+ fmt_T prvKey)
  end.

(** What the round trip needs of [encoding/pem] at one block: decoding the
    encoded block gives the block back. *)
Definition pem_roundtrip (block : pem_Block) : Prop :=
  ∃ rest, pem_Decode (pem_EncodeToMemory block) = (Some block, rest).

(** What the round trip needs of [crypto/x509] at one key: parsing the
    encoding of the key gives the key back. *)
Definition der_roundtrip (prvKey : crypto_PrivateKey) : Prop :=
  match prvKey with
  | KeyRSAPtr k =>
      x509_ParsePKCS1PrivateKey (x509_MarshalPKCS1PrivateKey k) = Ok k
  | KeyECDSAPtr k =>
      ∀ der, x509_MarshalECPrivateKey k = Ok der →
             x509_ParseECPrivateKey der = Ok k
  | KeyED25519 k =>
      ∀ der, x509_MarshalPKCS8PrivateKey prvKey = Ok der →
             x509_ParsePKCS8PrivateKey der = Ok (PKCS8ED25519 k)
  | _ => True
  end.

(** What the code comment of [setPublicKeyAttributes] says of
    [golang.org/x/crypto/ssh]: it has no key on the curve P-224. *)
Definition ssh_rejects_P224 : Prop :=
  ∀ pub, ecdsa_Curve pub = elliptic_P224 → is_Err (ssh_NewPublicKey (PubECDSA pub)).

End PrivateKeyExport.

(** The attributes [setPublicKeyAttributes] writes. *)
Definition publicKeyAttributes : list string :=
  [ "public_key_pem"; "public_key_openssh";
    "public_key_fingerprint_md5"; "public_key_fingerprint_sha256" ].

(** ** Validity and early renewal

    The certificate resources are not among the sources; the test file
    drives them through configurations and clock settings. *)

(** A time, in seconds since the epoch, and an hour in that unit. *)
Definition Timestamp := Z.
Definition Hour : Z := 3600.

(** Days from 1970-01-01 to a date of the Gregorian calendar, and the time
    of a date and an hour of the day, as the tests set the clock. *)
Definition daysFromCivil (y m d : Z) : Z :=
  let y' := if m <=? 2 then y - 1 else y in
  let era := y' / 400 in
  let yoe := y' - era * 400 in
  let mp := (m + 9) mod 12 in
  let doy := (153 * mp + 2) / 5 + d - 1 in
  let doe := yoe * 365 + yoe / 4 - yoe / 100 + doy in
  era * 146097 + doe - 719468.

Definition setTimeForTest (y m d hh : Z) : Timestamp :=
  daysFromCivil y m d * 86400 + hh * Hour.

(** Modelled from the spec: the fields of the missing certificate resource
    that the renewal policy reads, "ValidityHours (non-negative integer) +
    EarlyRenewalHours (non-negative integer)". *)
Record CertificateSpec := {
  ValidityHours : Z;
  EarlyRenewalHours : Z }.

(** [selfSignedCertConfig(validity, earlyRenewal)] of the test file. *)
Definition selfSignedCertConfig (validity earlyRenewal : Z) : CertificateSpec :=
  {| ValidityHours := validity; EarlyRenewalHours := earlyRenewal |}.

(** Modelled from the spec: the missing renewal deadline, "Deadline = issuedAt
    + spec.ValidityHours - spec.EarlyRenewalHours". *)
Definition Deadline (issuedAt : Timestamp) (spec : CertificateSpec) : Timestamp :=
  issuedAt + ValidityHours spec * Hour - EarlyRenewalHours spec * Hour.

(** Modelled from the spec: the missing expiry policy, "Returns true iff asOf <
    Deadline". *)
Definition isCurrent (issuedAt : Timestamp) (spec : CertificateSpec) (asOf : Timestamp) : bool :=
  asOf <? Deadline issuedAt spec.

(** Modelled from the spec: the missing certificate, "bound to exactly one
    issuance timestamp (NotBefore) and one NotAfter = NotBefore +
    ValidityHours", with a serial number "unique per issuance". *)
Record Certificate := {
  NotBefore : Timestamp;
  NotAfter : Timestamp;
  SerialNumber : Z }.

(** The stored resource, and how many certificates were issued so far. *)
Record State := {
  stored : option Certificate;
  issuances : Z }.

Definition initialState : State := {| stored := None; issuances := 0 |}.

(** Modelled from the spec: the validity window of the missing issuer,
    "NotBefore = now; NotAfter = now + spec.ValidityHours". *)
Definition issue (st : State) (spec : CertificateSpec) (now : Timestamp) : State :=
  {| stored := Some {| NotBefore := now;
                       NotAfter := now + ValidityHours spec * Hour;
                       SerialNumber := issuances st |};
     issuances := issuances st + 1 |}.

(** Modelled from the spec: the missing read of the resource, "Expiry Policy is
    consulted on each subsequent read to decide whether the certificate
    must be reissued", against the stored issuance time. *)
Definition applyStep (st : State) (spec : CertificateSpec) (now : Timestamp) : State :=
  match stored st with
  | None => issue st spec now
  | Some cert =>
      if isCurrent (NotBefore cert) spec now then st else issue st spec now
  end.

(** A test step: the configuration, and the clock when it is applied. The
    run gives the serial number of the certificate seen by each check. *)
Fixpoint runSteps (st : State) (steps : list (CertificateSpec * Timestamp)) : list (option Z) :=
  match steps with
  | [] => []
  | (spec, now) :: steps' =>
      let st' := applyStep st spec now in
      (SerialNumber <$> stored st') :: runSteps st' steps'
  end.

(** The steps of [TestAccSelfSignedCertRecreatesAfterExpired]. *)
Definition stepsRecreatesAfterExpired : list (CertificateSpec * Timestamp) :=
  [ (selfSignedCertConfig 10 2, setTimeForTest 2019 6 14 12);
    (selfSignedCertConfig 10 2, setTimeForTest 2019 6 14 12);
    (selfSignedCertConfig 10 2, setTimeForTest 2019 6 14 19);
    (selfSignedCertConfig 10 2, setTimeForTest 2019 6 14 21) ].

(** The steps of [TestAccSelfSignedCertNotRecreatedForEarlyRenewalUpdateInFuture]. *)
Definition stepsEarlyRenewalUpdateInFuture : list (CertificateSpec * Timestamp) :=
  [ (selfSignedCertConfig 10 2, setTimeForTest 2019 6 14 12);
    (selfSignedCertConfig 10 3, setTimeForTest 2019 6 14 12);
    (selfSignedCertConfig 10 3, setTimeForTest 2019 6 14 16);
    (selfSignedCertConfig 10 9, setTimeForTest 2019 6 14 16) ].

(** ** Validation of the configuration *)

(** Modelled from the spec: the missing validation of the certificate
    resource, "ValidationError is produced ... when ValidityHours < 0 or
    EarlyRenewalHours < 0, with a message naming the offending field and
    the violated bound"; the text is the one
    [TestAccSelfSignedCert_InvalidConfigs] expects. *)
Definition intAtLeast (min : Z) (field : string) (v : Z) : list error :=
  if v <? min
  then [ "expected " +:+ field +:+ " to be at least (" +:+ fmt_d min
         +:+ "), got " +:+ fmt_d v ]
  else [].

Definition validateSpec (spec : CertificateSpec) : list error :=
  intAtLeast 0 "validity_period_hours" (ValidityHours spec)
  ++ intAtLeast 0 "early_renewal_hours" (EarlyRenewalHours spec).

(** The cryptographic steps of an issuance, as they are attempted. *)
Inductive CryptoStep :=
| StepParsePrivateKey
| StepDerivePublicKey
| StepSign.

Inductive IssueError :=
| ValidationError (msgs : list error)
| KeyError (msg : error).

Section Issuance.

Context `{GoLibs}.

(** Modelled from the spec: the order of the missing creation of a self-signed
    certificate, "ValidationError ... rejected before any cryptographic
    work begins"; then the private key is parsed, its public key derived,
    and the certificate signed. The result comes with the cryptographic
    steps attempted. *)
Definition createSelfSignedCert (st : State) (spec : CertificateSpec)
    (private_key_pem : string) (now : Timestamp)
  : (State + IssueError) * list CryptoStep :=
  match validateSpec spec with
  | (_ :: _) as msgs => (inr (ValidationError msgs), [])
  | [] =>
      match parsePrivateKeyPEM (list_byte_of_string private_key_pem) with
      | Err err => (inr (KeyError err), [StepParsePrivateKey])
      | Ok (prvKey, _) =>
          match privateKeyToPublicKey prvKey with
          | Err err => (inr (KeyError err), [StepParsePrivateKey; StepDerivePublicKey])
          | Ok _ =>
              (inl (issue st spec now),
               [StepParsePrivateKey; StepDerivePublicKey; StepSign])
          end
      end
  end.

End Issuance.

(** ** A small instance of the libraries

    Stand-ins for the library functions, simple enough to evaluate: numbers
    are written on two bytes, a PEM body in hexadecimal rather than base
    64, and the fingerprints are not digests. They serve to run the
    definitions above on concrete keys. *)

Module Fixture.

Definition byte_of (z : Z) : byte :=
  default x00 (Byte.of_N (Z.to_N (z mod 256))).

Definition enc16 (z : Z) : list byte := [byte_of (z / 256); byte_of z].

Fixpoint dec16s (l : list byte) : option (list Z) :=
  match l with
  | [] => Some []
  | hi :: lo :: l' =>
      match dec16s l' with
      | Some zs => Some (256 * Z.of_N (Byte.to_N hi) + Z.of_N (Byte.to_N lo) :: zs)
      | None => None
      end
  | _ => None
  end.

Definition hex_char (n : N) : ascii :=
  default "0"%char (String.get (N.to_nat n) "0123456789abcdef").

Definition hex_val (c : ascii) : option N :=
  let n := N_of_ascii c in
  if ((48 <=? n) && (n <=? 57))%N then Some (n - 48)%N
  else if ((97 <=? n) && (n <=? 102))%N then Some (n - 87)%N
  else None.

Fixpoint hex (l : list byte) : string :=
  match l with
  | [] => ""
  | b :: l' =>
      let n := Byte.to_N b in
      String (hex_char (n / 16)) (String (hex_char (n mod 16)) (hex l'))
  end.

Fixpoint unhex (s : string) : option (list byte) :=
  match s with
  | EmptyString => Some []
  | String a (String b s') =>
      match hex_val a, hex_val b, unhex s' with
      | Some hi, Some lo, Some l =>
          match Byte.of_N (16 * hi + lo) with
          | Some x => Some (x :: l)
          | None => None
          end
      | _, _, _ => None
      end
  | _ => None
  end.

Definition newline : string := String "010"%char EmptyString.

Definition curve_index (c : elliptic_Curve) : Z :=
  match c with
  | elliptic_P224 => 0
  | elliptic_P256 => 1
  | elliptic_P384 => 2
  | elliptic_P521 => 3
  end.

Definition curve_of_index (z : Z) : option elliptic_Curve :=
  match z with
  | 0 => Some elliptic_P224
  | 1 => Some elliptic_P256
  | 2 => Some elliptic_P384
  | 3 => Some elliptic_P521
  | _ => None
  end.

Definition marshalRSA (k : rsa_PrivateKey) : list byte :=
  concat (enc16 <$> (rsa_N (rsa_Public k) :: rsa_E (rsa_Public k) :: rsa_D k :: rsa_Primes k)).

Definition parseRSA (der : list byte) : result rsa_PrivateKey :=
  match dec16s der with
  | Some (n :: e :: d :: primes) =>
      Ok {| rsa_Public := {| rsa_N := n; rsa_E := e |}; rsa_D := d; rsa_Primes := primes |}
  | _ => Err "x509: failed to parse private key"
  end.

Definition marshalEC (k : ecdsa_PrivateKey) : list byte :=
  concat (enc16 <$> [ curve_index (ecdsa_Curve (ecdsa_Public k));
                      ecdsa_X (ecdsa_Public k); ecdsa_Y (ecdsa_Public k); ecdsa_D k ]).

Definition parseEC (der : list byte) : result ecdsa_PrivateKey :=
  match dec16s der with
  | Some [c; x; y; d] =>
      match curve_of_index c with
      | Some curve =>
          Ok {| ecdsa_Public := {| ecdsa_Curve := curve; ecdsa_X := x; ecdsa_Y := y |};
                ecdsa_D := d |}
      | None => Err "x509: unknown elliptic curve"
      end
  | _ => Err "x509: failed to parse EC private key"
  end.

Definition marshalPKCS8 (prvKey : crypto_PrivateKey) : result (list byte) :=
  match prvKey with
  | KeyRSAPtr k => Ok (x00 :: marshalRSA k)
  | KeyECDSAPtr k => Ok (x01 :: marshalEC k)
  | KeyED25519 k => Ok (x02 :: k)
  | _ => Err "x509: unknown key type while marshaling PKCS#8"
  end.

Definition parsePKCS8 (der : list byte) : result pkcs8_Key :=
  match der with
  | x00 :: der' =>
      match parseRSA der' with Ok k => Ok (PKCS8RSA k) | Err e => Err e end
  | x01 :: der' =>
      match parseEC der' with Ok k => Ok (PKCS8ECDSA k) | Err e => Err e end
  | x02 :: der' => Ok (PKCS8ED25519 der')
  | x03 :: der' => Ok (PKCS8ECDH der')
  | _ => Err "x509: failed to parse private key"
  end.

Definition marshalPKIX (pub : crypto_PublicKey) : result (list byte) :=
  match pub with
  | PubRSA p => Ok (x00 :: concat (enc16 <$> [rsa_N p; rsa_E p]))
  | PubECDSA p =>
      Ok (x01 :: concat (enc16 <$> [curve_index (ecdsa_Curve p); ecdsa_X p; ecdsa_Y p]))
  | PubED25519 p => Ok (x02 :: p)
  | PubOther _ => Err "x509: unsupported public key type"
  end.

Definition encodeToMemory (b : pem_Block) : list byte :=
  list_byte_of_string
    ("-----BEGIN " +:+ pem_Type b +:+ "-----" +:+ newline
     +:+ hex (pem_Bytes b) +:+ newline
     +:+ "-----END " +:+ pem_Type b +:+ "-----" +:+ newline).

Definition decode (data : list byte) : option pem_Block * list byte :=
  let s := string_of_list_byte data in
  if String.prefix "-----BEGIN " s then
    let s1 := String.substring 11 (String.length s - 11) s in
    match String.index 0 ("-----" +:+ newline) s1 with
    | None => (None, data)
    | Some i =>
        let label := String.substring 0 i s1 in
        let body := String.substring (i + 6) (String.length s1 - (i + 6)) s1 in
        let ending := newline +:+ "-----END " +:+ label +:+ "-----" +:+ newline in
        match String.index 0 ending body with
        | None => (None, data)
        | Some j =>
            match unhex (String.substring 0 j body) with
            | None => (None, data)
            | Some payload =>
                let used := (j + String.length ending)%nat in
                (Some {| pem_Type := label; pem_Headers := ∅; pem_Bytes := payload |},
                 list_byte_of_string
                   (String.substring used (String.length body - used) body))
            end
        end
    end
  else (None, data).

Definition newPublicKey (pub : crypto_PublicKey) : result crypto_PublicKey :=
  match pub with
  | PubECDSA p =>
      match ecdsa_Curve p with
      | elliptic_P224 => Err "ssh: only P-256, P-384 and P-521 EC keys are supported"
      | _ => Ok pub
      end
  | PubOther T => Err ("ssh: unsupported key type " +:+ T)
  | _ => Ok pub
  end.

Definition keyType (pub : crypto_PublicKey) : string :=
  match pub with
  | PubRSA _ => "ssh-rsa"
  | PubECDSA _ => "ecdsa-sha2-nistp"
  | PubED25519 _ => "ssh-ed25519"
  | PubOther T => T
  end.

Definition wire (pub : crypto_PublicKey) : list byte :=
  match marshalPKIX pub with Ok b => b | Err _ => [] end.

Definition libs : GoLibs := {|
  rand_Reader := Z;
  rsa_GenerateKey := λ seed bits,
    if bits <? 12 then Err "crypto/rsa: key too small"
    else Ok {| rsa_Public := {| rsa_N := 3233; rsa_E := 17 |};
               rsa_D := 2753; rsa_Primes := [61; 53] |};
  ecdsa_GenerateKey := λ curve seed,
    Ok {| ecdsa_Public := {| ecdsa_Curve := curve; ecdsa_X := seed mod 65536;
                             ecdsa_Y := (seed + 1) mod 65536 |};
          ecdsa_D := (seed + 2) mod 65536 |};
  ed25519_GenerateKey := λ seed,
    let pub := replicate 32 (byte_of (seed + 1)) in
    Ok (pub, replicate 32 (byte_of seed) ++ pub);
  x509_ParsePKCS1PrivateKey := parseRSA;
  x509_ParseECPrivateKey := parseEC;
  x509_ParsePKCS8PrivateKey := parsePKCS8;
  x509_MarshalPKCS1PrivateKey := marshalRSA;
  x509_MarshalECPrivateKey := λ k, Ok (marshalEC k);
  x509_MarshalPKCS8PrivateKey := marshalPKCS8;
  x509_MarshalPKIXPublicKey := marshalPKIX;
  pem_Decode := decode;
  pem_EncodeToMemory := encodeToMemory;
  ssh_PublicKey := crypto_PublicKey;
  ssh_NewPublicKey := newPublicKey;
  ssh_MarshalAuthorizedKey := λ pub,
    list_byte_of_string (keyType pub +:+ " " +:+ hex (wire pub) +:+ newline);
  ssh_FingerprintLegacyMD5 := λ pub, "MD5:" +:+ hex (take 2 (wire pub));
  ssh_FingerprintSHA256 := λ pub, "SHA256:" +:+ hex (take 4 (wire pub));
  ssh_ParseRawPrivateKey := λ data,
    match parsePKCS8 data with Ok k => Ok (pkcs8_any k) | Err e => Err e end;
  schema_SetError := λ key, "Invalid address to set: " +:+ key;
  hashForState := λ s, hex (take 4 (list_byte_of_string s));
  unknownPreambleError := λ label, "unsupported PEM preamble/type: " +:+ label |}.

(** Resource data whose schema has the key attributes. *)
Definition keyResource (ecdsa_curve : string) (rsa_bits : Z) : ResourceData :=
  {| rd_schema := list_to_set ("rsa_bits" :: "ecdsa_curve" :: publicKeyAttributes);
     rd_id := "";
     rd_int := {[ "rsa_bits" := rsa_bits ]};
     rd_str := {[ "ecdsa_curve" := ecdsa_curve ]} |}.

(** Resource data of a schema that has [public_key_pem] and none of the
    OpenSSH attributes. *)
Definition pemOnlyResource : ResourceData :=
  {| rd_schema := {[ "public_key_pem" ]};
     rd_id := "";
     rd_int := ∅;
     rd_str := ∅ |}.

(** Sample keys, and the PEM text of a block. *)
Definition rsaKey : rsa_PrivateKey :=
  {| rsa_Public := {| rsa_N := 3233; rsa_E := 17 |}; rsa_D := 2753; rsa_Primes := [61; 53] |}.

Definition p256Key : ecdsa_PrivateKey :=
  {| ecdsa_Public := {| ecdsa_Curve := elliptic_P256; ecdsa_X := 1; ecdsa_Y := 2 |};
     ecdsa_D := 3 |}.

Definition pemOf (label : string) (der : list byte) : list byte :=
  encodeToMemory {| pem_Type := label; pem_Headers := ∅; pem_Bytes := der |}.

(** The same libraries, with an OpenSSH parser that knows one more kind of
    key: a container that starts with the byte 3 holds a DSA key, which
    [ssh.ParseRawPrivateKey] returns as a [*dsa.PrivateKey]. *)
Definition libsWithDSA : GoLibs := {|
  rand_Reader := @rand_Reader libs;
  rsa_GenerateKey := @rsa_GenerateKey libs;
  ecdsa_GenerateKey := @ecdsa_GenerateKey libs;
  ed25519_GenerateKey := @ed25519_GenerateKey libs;
  x509_ParsePKCS1PrivateKey := parseRSA;
  x509_ParseECPrivateKey := parseEC;
  x509_ParsePKCS8PrivateKey := parsePKCS8;
  x509_MarshalPKCS1PrivateKey := marshalRSA;
  x509_MarshalECPrivateKey := λ k, Ok (marshalEC k);
  x509_MarshalPKCS8PrivateKey := marshalPKCS8;
  x509_MarshalPKIXPublicKey := marshalPKIX;
  pem_Decode := decode;
  pem_EncodeToMemory := encodeToMemory;
  ssh_PublicKey := crypto_PublicKey;
  ssh_NewPublicKey := newPublicKey;
  ssh_MarshalAuthorizedKey := @ssh_MarshalAuthorizedKey libs;
  ssh_FingerprintLegacyMD5 := @ssh_FingerprintLegacyMD5 libs;
  ssh_FingerprintSHA256 := @ssh_FingerprintSHA256 libs;
  ssh_ParseRawPrivateKey := λ data,
    match data with
    | x03 :: _ => Ok (KeyOther "*dsa.PrivateKey" None)
    | _ => @ssh_ParseRawPrivateKey libs data
    end;
  schema_SetError := @schema_SetError libs;
  hashForState := @hashForState libs;
  unknownPreambleError := @unknownPreambleError libs |}.

End Fixture.

(** * Properties *)

(** ** Formatting and lookups *)

(** Membership in a list that is written out. *)
Ltac elem_of_list :=
  repeat first [ apply list_elem_of_here | apply list_elem_of_further ].

Lemma string_of_list_byte_nonempty (l : list byte) :
  l ≠ [] → string_of_list_byte l ≠ "".
Proof. destruct l; [done | discriminate]. Qed.

Lemma PEMPreamble_String_inj (p q : PEMPreamble) :
  PEMPreamble_String p = PEMPreamble_String q → p = q.
Proof. destruct p, q; simpl; intros Heq; try reflexivity; discriminate Heq. Qed.

Section ProviderFacts.

Context `{GoLibs}.

Lemma PEMBlockToPEMPreamble_String (p : PEMPreamble) headers der :
  PEMBlockToPEMPreamble
    {| pem_Type := PEMPreamble_String p; pem_Headers := headers; pem_Bytes := der |} = Ok p.
Proof. by destruct p. Qed.

Lemma keyGenerators_lookup (algorithm : Algorithm) (gen : keyGenerator) :
  keyGenerators !! algorithm = Some gen →
  (algorithm = RSA ∧ gen = generateRSA)
  ∨ (algorithm = ECDSA ∧ gen = generateECDSA)
  ∨ (algorithm = ED25519 ∧ gen = generateED25519).
Proof.
  unfold keyGenerators. intros Hlook.
  destruct (decide (algorithm = RSA)) as [-> | HnR].
  { rewrite lookup_insert_eq in Hlook. left. by inversion Hlook. }
  rewrite lookup_insert_ne in Hlook by done.
  destruct (decide (algorithm = ECDSA)) as [-> | HnE].
  { rewrite lookup_insert_eq in Hlook. right; left. by inversion Hlook. }
  rewrite lookup_insert_ne in Hlook by done.
  destruct (decide (algorithm = ED25519)) as [-> | HnD].
  { rewrite lookup_insert_eq in Hlook. right; right. by inversion Hlook. }
  rewrite lookup_insert_ne in Hlook by done.
  by rewrite lookup_empty in Hlook.
Qed.

Lemma keyParsers_lookup (preamble : PEMPreamble) (parser : keyParser) :
  keyParsers !! preamble = Some parser →
  (preamble = PreamblePrivateKeyRSA
     ∧ parser = λ der, as_PrivateKey KeyRSAPtr (x509_ParsePKCS1PrivateKey der))
  ∨ (preamble = PreamblePrivateKeyEC
     ∧ parser = λ der, as_PrivateKey KeyECDSAPtr (x509_ParseECPrivateKey der))
  ∨ (preamble = PreamblePrivateKeyPKCS8
     ∧ parser = λ der, as_PrivateKey pkcs8_any (x509_ParsePKCS8PrivateKey der)).
Proof.
  intros Hlook.
  destruct preamble; vm_compute in Hlook; try discriminate Hlook;
    inversion Hlook; auto.
Qed.

(** The keys the generators produce are of the types the export handles. *)
Lemma generated_key_shape (algorithm : Algorithm) (gen : keyGenerator) d rand prvKey :
  keyGenerators !! algorithm = Some gen →
  gen d rand = Ok prvKey →
  (algorithm = RSA ∧ ∃ k, prvKey = KeyRSAPtr k)
  ∨ (algorithm = ECDSA ∧ ∃ k, prvKey = KeyECDSAPtr k)
  ∨ (algorithm = ED25519 ∧ ∃ k, prvKey = KeyED25519 k).
Proof.
  intros Hlook Hgen.
  destruct (keyGenerators_lookup _ _ Hlook) as [[-> ->] | [[-> ->] | [-> ->]]].
  - left. split; [done |]. unfold generateRSA in Hgen.
    destruct (rsa_GenerateKey _ _); simpl in Hgen; inversion Hgen. eauto.
  - right; left. split; [done |]. unfold generateECDSA in Hgen.
    repeat (destruct (String.eqb _ _);
            [ destruct (ecdsa_GenerateKey _ _); simpl in Hgen; inversion Hgen; eauto | ]).
    discriminate Hgen.
  - right; right. split; [done |]. unfold generateED25519 in Hgen.
    destruct (ed25519_GenerateKey _) as [[pub key] | e]; inversion Hgen. eauto.
Qed.

(** [d.Set]: what it does to the resource data either way. *)
Lemma d_Set_ok (d : ResourceData) key value :
  key ∈ rd_schema d →
  d_Set d key value =
    ({| rd_schema := rd_schema d; rd_id := rd_id d; rd_int := rd_int d;
        rd_str := <[key := value]> (rd_str d) |}, None).
Proof. intros Hin. unfold d_Set. by rewrite decide_True. Qed.

Lemma d_Set_fail (d : ResourceData) key value :
  key ∉ rd_schema d → d_Set d key value = (d, Some (schema_SetError key)).
Proof. intros Hin. unfold d_Set. by rewrite decide_False. Qed.

Lemma d_Set_inv (d d' : ResourceData) key value (e : option error) :
  d_Set d key value = (d', e) →
  rd_schema d' = rd_schema d ∧ rd_id d' = rd_id d ∧
  ((e = None ∧ key ∈ rd_schema d ∧ rd_str d' = (<[key := value]> (rd_str d)))
   ∨ (e = Some (schema_SetError key) ∧ (key ∉ rd_schema d) ∧ d' = d)).
Proof.
  unfold d_Set. case_decide; intros Heq; inversion Heq; subst; simpl.
  - split; [done |]. split; [done |]. by left.
  - split; [done |]. split; [done |]. by right.
Qed.

End ProviderFacts.

(** ** Parsing a private key *)

(** C5: when no PEM block can be decoded from the input, [parsePrivateKeyPEM]
    returns an error, so neither a key nor an algorithm, and the message
    gives the number of decoded bytes and the number of undecoded bytes
    that [pem.Decode] left. *)
Theorem parsePrivateKeyPEM_no_block `{GoLibs} (keyPEMBytes : list byte) :
  (pem_Decode keyPEMBytes).1 = None →
  parsePrivateKeyPEM keyPEMBytes =
    Err ("failed to decode PEM block: decoded bytes "
         +:+ fmt_d (len keyPEMBytes - len (pem_Decode keyPEMBytes).2)
         +:+ ", undecoded " +:+ fmt_d (len (pem_Decode keyPEMBytes).2)).
Proof.
  intros Hnone. unfold parsePrivateKeyPEM.
  destruct (pem_Decode keyPEMBytes) as [pemBlock rest]. simpl in *.
  by rewrite Hnone.
Qed.

(** The key of the invalid configurations of the test file holds no block:
    nothing is decoded and its fifteen bytes are left. *)
Lemma parsePrivateKeyPEM_no_block_witness :
  (@pem_Decode Fixture.libs (list_byte_of_string "does not matter")).1 = None
  ∧ @parsePrivateKeyPEM Fixture.libs (list_byte_of_string "does not matter")
    = Err "failed to decode PEM block: decoded bytes 0, undecoded 15".
Proof.
  split; [reflexivity |].
  exact (@parsePrivateKeyPEM_no_block Fixture.libs
           (list_byte_of_string "does not matter") eq_refl).
Defined.

(** ** Generating a key *)

(** C6: the ECDSA generator fails, with a message that lists the supported
    curves, when the curve is none of P224, P256, P384 and P521, and calls
    [ecdsa.GenerateKey] on the curve of that name when it is one of them. *)
Theorem generateECDSA_curves `{GoLibs} (d : ResourceData) (rand : rand_Reader)
    (curve : ECDSACurve) :
  d_GetString d "ecdsa_curve" = curve →
  keyGenerators !! ECDSA = Some generateECDSA
  ∧ (curve ∉ [P224; P256; P384; P521] →
       generateECDSA d rand
         = Err "invalid ECDSA curve; supported values are: [P224 P256 P384 P521]"
       ∧ ∀ c, c ∈ [P224; P256; P384; P521] →
           sub "invalid ECDSA curve; supported values are: [P224 P256 P384 P521]" c = true)
  ∧ (curve = P224 →
       generateECDSA d rand = as_PrivateKey KeyECDSAPtr (ecdsa_GenerateKey elliptic_P224 rand))
  ∧ (curve = P256 →
       generateECDSA d rand = as_PrivateKey KeyECDSAPtr (ecdsa_GenerateKey elliptic_P256 rand))
  ∧ (curve = P384 →
       generateECDSA d rand = as_PrivateKey KeyECDSAPtr (ecdsa_GenerateKey elliptic_P384 rand))
  ∧ (curve = P521 →
       generateECDSA d rand = as_PrivateKey KeyECDSAPtr (ecdsa_GenerateKey elliptic_P521 rand)).
Proof.
  intros Hcurve. split; [reflexivity |].
  unfold generateECDSA. rewrite Hcurve.
  split; [| by repeat split; intros ->].
  intros Hnot. split.
  - destruct (String.eqb_spec curve P224) as [-> | _]; [exfalso; apply Hnot; set_solver |].
    destruct (String.eqb_spec curve P256) as [-> | _]; [exfalso; apply Hnot; set_solver |].
    destruct (String.eqb_spec curve P384) as [-> | _]; [exfalso; apply Hnot; set_solver |].
    destruct (String.eqb_spec curve P521) as [-> | _]; [exfalso; apply Hnot; set_solver |].
    reflexivity.
  - intros c Hc. repeat (apply elem_of_cons in Hc as [-> | Hc]; [reflexivity |]).
    by apply elem_of_nil in Hc.
Qed.

(** A curve the provider does not know is refused; P384 is generated on
    P-384. *)
Lemma generateECDSA_curves_witness :
  @generateECDSA Fixture.libs (Fixture.keyResource "P192" 0) 7
    = Err "invalid ECDSA curve; supported values are: [P224 P256 P384 P521]"
  ∧ @generateECDSA Fixture.libs (Fixture.keyResource "P384" 0) 7
    = Ok (KeyECDSAPtr {| ecdsa_Public := {| ecdsa_Curve := elliptic_P384;
                                            ecdsa_X := 7; ecdsa_Y := 8 |};
                         ecdsa_D := 9 |}).
Proof.
  split.
  - refine (proj1 (proj1 (proj2 (@generateECDSA_curves Fixture.libs
                                   (Fixture.keyResource "P192" 0) 7 "P192" eq_refl)) _)).
    intros Hin.
    repeat (apply elem_of_cons in Hin as [Heq | Hin]; [discriminate Heq |]).
    by apply elem_of_nil in Hin.
  - exact (proj1 (proj2 (proj2 (proj2 (proj2 (@generateECDSA_curves Fixture.libs
                   (Fixture.keyResource "P384" 0) 7 "P384" eq_refl))))) eq_refl).
Defined.

(** ** Identifying the algorithm and deriving the public key *)

(** C10, as stated, fails: the PKCS#8 parser of [keyParsers] returns an X25519
    key as a [*ecdh.PrivateKey], and on that key neither
    [privateKeyToAlgorithm] nor [privateKeyToPublicKey] succeeds. *)
Lemma parsed_key_rejected_by_both :
  ¬ (∀ (preamble : PEMPreamble) (parser : keyParser) (der : list byte)
       (prvKey : crypto_PrivateKey),
       @keyParsers Fixture.libs !! preamble = Some parser →
       parser der = Ok prvKey →
       ∃ algorithm pubKey,
         privateKeyToAlgorithm prvKey = Ok algorithm
         ∧ privateKeyToPublicKey prvKey = Ok pubKey).
Proof.
  intros Hall.
  destruct (Hall PreamblePrivateKeyPKCS8
              (λ der, as_PrivateKey pkcs8_any (Fixture.parsePKCS8 der))
              (x03 :: replicate 32 x09) (KeyOther "*ecdh.PrivateKey" None)
              eq_refl eq_refl) as (algorithm & pubKey & Halg & _).
  discriminate Halg.
Qed.

(** C10, amended: [privateKeyToAlgorithm] names the algorithm of an
    [rsa.PrivateKey] and of an [ecdsa.PrivateKey] held by value, for which
    [privateKeyToPublicKey] fails as they are no [crypto.Signer]; a key a
    parser of [keyParsers] returns is a [*rsa.PrivateKey], a
    [*ecdsa.PrivateKey] or an [ed25519.PrivateKey], on which both succeed,
    or else the [*ecdh.PrivateKey] of the PKCS#8 parser, on which both fail;
    [privateKeyToAlgorithm] accepts every key of the six types of its
    switch, and [privateKeyToPublicKey] accepts a key of any other type
    that is a [crypto.Signer], which [privateKeyToAlgorithm] rejects. *)
Theorem privateKeyToAlgorithm_value_keys `{GoLibs} :
  (∀ k, privateKeyToAlgorithm (KeyRSA k) = Ok RSA
        ∧ crypto_Signer (KeyRSA k) = None
        ∧ privateKeyToPublicKey (KeyRSA k) = Err "unsupported private key type: rsa.PrivateKey")
  ∧ (∀ k, privateKeyToAlgorithm (KeyECDSA k) = Ok ECDSA
          ∧ crypto_Signer (KeyECDSA k) = None
          ∧ privateKeyToPublicKey (KeyECDSA k)
            = Err "unsupported private key type: ecdsa.PrivateKey")
  ∧ (∀ preamble parser der prvKey,
       keyParsers !! preamble = Some parser →
       parser der = Ok prvKey →
       (((∃ k, prvKey = KeyRSAPtr k) ∨ (∃ k, prvKey = KeyECDSAPtr k)
         ∨ (∃ k, prvKey = KeyED25519 k))
        ∧ ∃ algorithm pubKey,
            privateKeyToAlgorithm prvKey = Ok algorithm
            ∧ privateKeyToPublicKey prvKey = Ok pubKey)
       ∨ (preamble = PreamblePrivateKeyPKCS8
          ∧ prvKey = KeyOther "*ecdh.PrivateKey" None
          ∧ privateKeyToAlgorithm prvKey
            = Err "unsupported private key type: *ecdh.PrivateKey"
          ∧ privateKeyToPublicKey prvKey
            = Err "unsupported private key type: *ecdh.PrivateKey"))
  ∧ (∀ prvKey,
       (∀ T signer, prvKey ≠ KeyOther T signer) →
       is_Ok (privateKeyToAlgorithm prvKey))
  ∧ (∀ T pubKey,
       privateKeyToPublicKey (KeyOther T (Some pubKey)) = Ok pubKey
       ∧ privateKeyToAlgorithm (KeyOther T (Some pubKey))
         = Err ("unsupported private key type: " +:+ T)).
Proof.
  split; [done |]. split; [done |]. split; [| split].
  - intros preamble parser der prvKey Hlook Hparse.
    destruct (keyParsers_lookup _ _ Hlook) as [[-> ->] | [[-> ->] | [-> ->]]];
      simpl in Hparse.
    + destruct (x509_ParsePKCS1PrivateKey der); inversion Hparse.
      left. split; [eauto | by eexists _, _].
    + destruct (x509_ParseECPrivateKey der); inversion Hparse.
      left. split; [eauto | by eexists _, _].
    + destruct (x509_ParsePKCS8PrivateKey der) as [[k | k | k | k] |]; inversion Hparse;
        [left; split; [eauto | by eexists _, _] ..
        | right; by repeat split].
  - intros prvKey Hshape. destruct prvKey; try exact I.
    by destruct (Hshape T signer).
  - by intros T pubKey.
Qed.

(** The PKCS#8 parser of the sample libraries on an ED25519 key and on an
    X25519 key. *)
Lemma privateKeyToAlgorithm_value_keys_witness :
  (∃ algorithm pubKey,
     privateKeyToAlgorithm (KeyED25519 (replicate 64 x01)) = Ok algorithm
     ∧ privateKeyToPublicKey (KeyED25519 (replicate 64 x01)) = Ok pubKey)
  ∧ privateKeyToAlgorithm (KeyOther "*ecdh.PrivateKey" None)
    = Err "unsupported private key type: *ecdh.PrivateKey".
Proof.
  split.
  - destruct (proj1 (proj2 (proj2 (@privateKeyToAlgorithm_value_keys Fixture.libs)))
                PreamblePrivateKeyPKCS8
                (λ der, as_PrivateKey pkcs8_any (Fixture.parsePKCS8 der))
                (x02 :: replicate 64 x01) (KeyED25519 (replicate 64 x01))
                eq_refl eq_refl)
      as [[_ Hboth] | (_ & Heq & _)].
    + exact Hboth.
    + discriminate Heq.
  - destruct (proj1 (proj2 (proj2 (@privateKeyToAlgorithm_value_keys Fixture.libs)))
                PreamblePrivateKeyPKCS8
                (λ der, as_PrivateKey pkcs8_any (Fixture.parsePKCS8 der))
                (x03 :: replicate 32 x09) (KeyOther "*ecdh.PrivateKey" None)
                eq_refl eq_refl)
      as [[[[k Heq] | [[k Heq] | [k Heq]]] _] | (_ & _ & Halg & _)].
    + discriminate Heq.
    + discriminate Heq.
    + discriminate Heq.
    + exact Halg.
Defined.

(** ** The round trip of a generated key *)

(** C3: for each of the algorithms RSA, ECDSA and ED25519 a generator is
    registered, and a key it generates, exported to PEM and parsed back with
    [parsePrivateKeyPEM], comes with the same algorithm and has the public
    key it had before the export; [encoding/pem] and [crypto/x509] are
    assumed to give back, at this key, what they encoded. *)
Theorem generate_export_parse_roundtrip `{GoLibs} (algorithm : Algorithm) :
  algorithm ∈ [RSA; ECDSA; ED25519] →
  ∃ gen : keyGenerator,
    keyGenerators !! algorithm = Some gen
    ∧ ∀ d rand prvKey block,
        gen d rand = Ok prvKey →
        privateKeyPEMBlock prvKey = Ok block →
        pem_roundtrip block →
        der_roundtrip prvKey →
        ∃ prvKey' pubKey,
          parsePrivateKeyPEM (pem_EncodeToMemory block) = Ok (prvKey', algorithm)
          ∧ privateKeyToPublicKey prvKey = Ok pubKey
          ∧ privateKeyToPublicKey prvKey' = Ok pubKey.
Proof.
  intros Halg.
  assert (∃ gen, keyGenerators !! algorithm = Some gen) as [gen Hlook].
  { repeat (apply elem_of_cons in Halg as [-> | Halg]; [by eexists |]).
    by apply elem_of_nil in Halg. }
  exists gen. split; [exact Hlook |].
  intros d rand prvKey block Hgen Hblock [rest Hpem] Hder.
  unfold parsePrivateKeyPEM. rewrite Hpem. cbv beta iota.
  destruct (generated_key_shape _ _ _ _ _ Hlook Hgen)
    as [[-> [k ->]] | [[-> [k ->]] | [-> [k ->]]]];
    unfold privateKeyPEMBlock in Hblock; unfold der_roundtrip in Hder.
  - inversion Hblock; subst block; clear Hblock.
    rewrite (PEMBlockToPEMPreamble_String PreamblePrivateKeyRSA). simpl.
    change (keyParsers !! PreamblePrivateKeyRSA)
      with (Some (λ der, as_PrivateKey KeyRSAPtr (x509_ParsePKCS1PrivateKey der))).
    simpl. rewrite Hder. simpl. by eexists _, _.
  - destruct (x509_MarshalECPrivateKey k) as [keyBytes | e] eqn:Hm; [| discriminate].
    inversion Hblock; subst block; clear Hblock.
    rewrite (PEMBlockToPEMPreamble_String PreamblePrivateKeyEC). simpl.
    change (keyParsers !! PreamblePrivateKeyEC)
      with (Some (λ der, as_PrivateKey KeyECDSAPtr (x509_ParseECPrivateKey der))).
    simpl. rewrite (Hder _ eq_refl). simpl. by eexists _, _.
  - destruct (x509_MarshalPKCS8PrivateKey (KeyED25519 k)) as [keyBytes | e] eqn:Hm;
      [| discriminate].
    inversion Hblock; subst block; clear Hblock.
    rewrite (PEMBlockToPEMPreamble_String PreamblePrivateKeyPKCS8). simpl.
    change (keyParsers !! PreamblePrivateKeyPKCS8)
      with (Some (λ der, as_PrivateKey pkcs8_any (x509_ParsePKCS8PrivateKey der))).
    simpl. rewrite (Hder _ eq_refl). simpl. by eexists _, _.
Qed.

(** An RSA key of the sample libraries, generated, exported and parsed. *)
Lemma generate_export_parse_roundtrip_witness :
  RSA ∈ [RSA; ECDSA; ED25519]
  ∧ ∃ (gen : @keyGenerator Fixture.libs) prvKey block,
      @keyGenerators Fixture.libs !! RSA = Some gen
      ∧ gen (Fixture.keyResource "" 2048) 7 = Ok prvKey
      ∧ @privateKeyPEMBlock Fixture.libs prvKey = Ok block
      ∧ @pem_roundtrip Fixture.libs block
      ∧ @der_roundtrip Fixture.libs prvKey
      ∧ ∃ prvKey' pubKey,
          @parsePrivateKeyPEM Fixture.libs (Fixture.encodeToMemory block) = Ok (prvKey', RSA)
          ∧ privateKeyToPublicKey prvKey = Ok pubKey
          ∧ privateKeyToPublicKey prvKey' = Ok pubKey.
Proof.
  assert (RSA ∈ [RSA; ECDSA; ED25519]) as Hin by apply list_elem_of_here.
  split; [exact Hin |].
  destruct (@generate_export_parse_roundtrip Fixture.libs RSA Hin) as [gen [Hlook Hall]].
  assert (gen = @generateRSA Fixture.libs) as ->.
  { change (Some (@generateRSA Fixture.libs) = Some gen) in Hlook. by inversion Hlook. }
  eexists _, _, _.
  split; [exact Hlook |].
  assert (Hgen : @generateRSA Fixture.libs (Fixture.keyResource "" 2048) 7
                 = Ok (KeyRSAPtr {| rsa_Public := {| rsa_N := 3233; rsa_E := 17 |};
                                    rsa_D := 2753; rsa_Primes := [61; 53] |}))
    by reflexivity.
  assert (Hpem : @pem_roundtrip Fixture.libs
                   {| pem_Type := "RSA PRIVATE KEY"; pem_Headers := ∅;
                      pem_Bytes := Fixture.marshalRSA
                        {| rsa_Public := {| rsa_N := 3233; rsa_E := 17 |};
                           rsa_D := 2753; rsa_Primes := [61; 53] |} |})
    by (exists []; reflexivity).
  split; [exact Hgen |].
  split; [reflexivity |].
  split; [exact Hpem |].
  split; [reflexivity |].
  exact (Hall _ _ _ _ Hgen eq_refl Hpem eq_refl).
Defined.

(** The same run on an ECDSA key and on an ED25519 key. *)
Example roundtrip_ECDSA_P521 :
  ∃ prvKey block,
    @generateECDSA Fixture.libs (Fixture.keyResource "P521" 0) 7 = Ok prvKey
    ∧ @privateKeyPEMBlock Fixture.libs prvKey = Ok block
    ∧ @parsePrivateKeyPEM Fixture.libs (Fixture.encodeToMemory block) = Ok (prvKey, ECDSA).
Proof. eexists _, _. split; [reflexivity |]. split; [reflexivity |]. vm_compute. reflexivity. Qed.

Example roundtrip_ED25519 :
  ∃ prvKey block,
    @generateED25519 Fixture.libs (Fixture.keyResource "" 0) 7 = Ok prvKey
    ∧ @privateKeyPEMBlock Fixture.libs prvKey = Ok block
    ∧ @parsePrivateKeyPEM Fixture.libs (Fixture.encodeToMemory block) = Ok (prvKey, ED25519).
Proof. eexists _, _. split; [reflexivity |]. split; [reflexivity |]. vm_compute. reflexivity. Qed.

(** ** The public key attributes *)

(** C4: for an ECDSA key on P-224, for which the SSH library has no public
    key, [setPublicKeyAttributes] succeeds, sets [public_key_openssh] and
    the two fingerprints to the empty string, and [public_key_pem] to a
    string that is not empty; the public key is assumed to marshal, the PEM
    encoding to be non-empty, and the schema to have the four attributes. *)
Theorem setPublicKeyAttributes_P224 `{GoLibs} (d : ResourceData)
    (k : ecdsa_PrivateKey) (pubKeyBytes : list byte) :
  ecdsa_Curve (ecdsa_Public k) = elliptic_P224 →
  ssh_rejects_P224 →
  x509_MarshalPKIXPublicKey (PubECDSA (ecdsa_Public k)) = Ok pubKeyBytes →
  pem_EncodeToMemory {| pem_Type := "PUBLIC KEY"; pem_Headers := ∅;
                        pem_Bytes := pubKeyBytes |} ≠ [] →
  (∀ key, key ∈ publicKeyAttributes → key ∈ rd_schema d) →
  ∃ d' publicKeyPEM,
    setPublicKeyAttributes d (KeyECDSAPtr k) = (d', [])
    ∧ rd_str d' !! "public_key_pem" = Some publicKeyPEM
    ∧ publicKeyPEM ≠ ""
    ∧ rd_str d' !! "public_key_openssh" = Some ""
    ∧ rd_str d' !! "public_key_fingerprint_md5" = Some ""
    ∧ rd_str d' !! "public_key_fingerprint_sha256" = Some "".
Proof.
  intros Hcurve Hssh Hmarshal Hpem Hschema.
  assert (Hin : ∀ key, key ∈ publicKeyAttributes →
                  key ∈ rd_schema d) by exact Hschema.
  unfold setPublicKeyAttributes.
  change (privateKeyToPublicKey (KeyECDSAPtr k)) with (Ok (PubECDSA (ecdsa_Public k))).
  cbv beta iota. rewrite Hmarshal.
  specialize (Hssh _ Hcurve).
  destruct (ssh_NewPublicKey (PubECDSA (ecdsa_Public k))) as [sshPubKey | e];
    [destruct Hssh |].
  rewrite d_Set_ok by (simpl; apply Hin; set_solver).
  rewrite d_Set_ok by (simpl; apply Hin; set_solver).
  rewrite d_Set_ok by (simpl; apply Hin; set_solver).
  rewrite d_Set_ok by (simpl; apply Hin; set_solver).
  eexists _, _. split; [reflexivity |]. simpl.
  split; [by simplify_map_eq |].
  split; [by apply string_of_list_byte_nonempty |].
  split; [by simplify_map_eq |].
  split; by simplify_map_eq.
Qed.

(** A key on P-224 of the sample libraries. *)
Lemma setPublicKeyAttributes_P224_witness :
  @ssh_rejects_P224 Fixture.libs
  ∧ ∃ d' publicKeyPEM,
      @setPublicKeyAttributes Fixture.libs (Fixture.keyResource "P224" 0)
        (KeyECDSAPtr {| ecdsa_Public := {| ecdsa_Curve := elliptic_P224;
                                           ecdsa_X := 7; ecdsa_Y := 8 |};
                        ecdsa_D := 9 |}) = (d', [])
      ∧ rd_str d' !! "public_key_pem" = Some publicKeyPEM
      ∧ publicKeyPEM ≠ ""
      ∧ rd_str d' !! "public_key_openssh" = Some ""
      ∧ rd_str d' !! "public_key_fingerprint_md5" = Some ""
      ∧ rd_str d' !! "public_key_fingerprint_sha256" = Some "".
Proof.
  assert (Hssh : @ssh_rejects_P224 Fixture.libs).
  { intros [c x y] Hc. simpl in Hc. subst c. exact I. }
  split; [exact Hssh |].
  refine (@setPublicKeyAttributes_P224 Fixture.libs (Fixture.keyResource "P224" 0)
            {| ecdsa_Public := {| ecdsa_Curve := elliptic_P224; ecdsa_X := 7; ecdsa_Y := 8 |};
               ecdsa_D := 9 |}
            _ eq_refl Hssh eq_refl _ _).
  - vm_compute. discriminate.
  - intros key Hkey. apply elem_of_list_to_set.
    do 2 apply list_elem_of_further. exact Hkey.
Defined.

(** The failures of [setPublicKeyAttributes], on any schema: either the
    public key could not be derived or marshalled and the resource data is
    unchanged, or a [d.Set] failed on an attribute the schema lacks, after
    the identifier was set. *)
Lemma setPublicKeyAttributes_failure_cases `{GoLibs} (d d' : ResourceData)
    (prvKey : crypto_PrivateKey) (ds : diag_Diagnostics) :
  setPublicKeyAttributes d prvKey = (d', ds) →
  HasError ds →
  (d' = d
   ∧ (is_Err (privateKeyToPublicKey prvKey)
      ∨ ∃ pubKey, privateKeyToPublicKey prvKey = Ok pubKey
                  ∧ is_Err (x509_MarshalPKIXPublicKey pubKey)))
  ∨ (∃ pubKey pubKeyBytes key,
       privateKeyToPublicKey prvKey = Ok pubKey
       ∧ x509_MarshalPKIXPublicKey pubKey = Ok pubKeyBytes
       ∧ key ∈ publicKeyAttributes
       ∧ (key ∉ rd_schema d)
       ∧ rd_id d' = hashForState (string_of_list_byte pubKeyBytes)
       ∧ ("public_key_pem" ∈ rd_schema d →
          rd_str d' !! "public_key_pem"
            = Some (string_of_list_byte
                      (pem_EncodeToMemory {| pem_Type := "PUBLIC KEY"; pem_Headers := ∅;
                                             pem_Bytes := pubKeyBytes |})))).
Proof.
  unfold setPublicKeyAttributes. intros Hcall Herr.
  destruct (privateKeyToPublicKey prvKey) as [pubKey | e] eqn:Hpub.
  2: { inversion Hcall; subst. left. split; [done |]. by left. }
  destruct (x509_MarshalPKIXPublicKey pubKey) as [pubKeyBytes | e] eqn:Hmarshal.
  2: { inversion Hcall; subst. left. split; [done |]. right. exists pubKey.
       by rewrite Hmarshal. }
  right. exists pubKey, pubKeyBytes.
  destruct (d_Set (d_SetId d _) "public_key_pem" _) as [d1 e1] eqn:Hset1.
  apply d_Set_inv in Hset1 as (Hs1 & Hi1 & [(-> & Hin1 & Hv1) | (-> & Hout1 & ->)]);
    simpl in Hs1, Hi1.
  2: { inversion Hcall; subst. exists "public_key_pem".
       split; [done |]. split; [done |]. split; [elem_of_list |].
       split; [exact Hout1 |]. split; [done |]. intros Hin. by destruct Hout1. }
  destruct (match ssh_NewPublicKey pubKey with Ok _ => _ | Err _ => _ end)
    as [[pubKeySSH md5] sha256].
  destruct (d_Set d1 "public_key_openssh" pubKeySSH) as [d2 e2] eqn:Hset2.
  apply d_Set_inv in Hset2 as (Hs2 & Hi2 & [(-> & Hin2 & Hv2) | (-> & Hout2 & ->)]).
  2: { inversion Hcall; subst. exists "public_key_openssh".
       split; [done |]. split; [done |]. split; [elem_of_list |].
       rewrite Hs1 in Hout2. split; [exact Hout2 |]. rewrite Hi1. split; [done |].
       intros _. rewrite Hv1. simpl. by rewrite lookup_insert_eq. }
  destruct (d_Set d2 "public_key_fingerprint_md5" md5) as [d3 e3] eqn:Hset3.
  apply d_Set_inv in Hset3 as (Hs3 & Hi3 & [(-> & Hin3 & Hv3) | (-> & Hout3 & ->)]).
  2: { inversion Hcall; subst. exists "public_key_fingerprint_md5".
       split; [done |]. split; [done |]. split; [elem_of_list |].
       rewrite Hs2, Hs1 in Hout3. split; [exact Hout3 |].
       rewrite Hi2, Hi1. split; [done |].
       intros _. rewrite Hv2, Hv1. simpl.
       rewrite lookup_insert_ne by done. by rewrite lookup_insert_eq. }
  destruct (d_Set d3 "public_key_fingerprint_sha256" sha256) as [d4 e4] eqn:Hset4.
  apply d_Set_inv in Hset4 as (Hs4 & Hi4 & [(-> & Hin4 & Hv4) | (-> & Hout4 & ->)]).
  2: { inversion Hcall; subst. exists "public_key_fingerprint_sha256".
       split; [done |]. split; [done |]. split; [elem_of_list |].
       rewrite Hs3, Hs2, Hs1 in Hout4. split; [exact Hout4 |].
       rewrite Hi3, Hi2, Hi1. split; [done |].
       intros _. rewrite Hv3, Hv2, Hv1. simpl.
       do 2 (rewrite lookup_insert_ne by done). by rewrite lookup_insert_eq. }
  inversion Hcall; subst. by destruct Herr.
Qed.

(** C9: on resource data whose schema has the four public key attributes,
    as the resources that call it declare them, [setPublicKeyAttributes]
    returns an error only when the public key could not be derived or
    marshalled, and then nothing has been set: the resource data, so the
    identifier and the four attributes, are as they were. *)
Theorem setPublicKeyAttributes_failure_atomic `{GoLibs} (d : ResourceData)
    (prvKey : crypto_PrivateKey) :
  (∀ key, key ∈ publicKeyAttributes → key ∈ rd_schema d) →
  HasError (setPublicKeyAttributes d prvKey).2 →
  (setPublicKeyAttributes d prvKey).1 = d
  ∧ rd_id (setPublicKeyAttributes d prvKey).1 = rd_id d
  ∧ (∀ key, key ∈ publicKeyAttributes →
       rd_str (setPublicKeyAttributes d prvKey).1 !! key = rd_str d !! key)
  ∧ (is_Err (privateKeyToPublicKey prvKey)
     ∨ ∃ pubKey, privateKeyToPublicKey prvKey = Ok pubKey
                 ∧ is_Err (x509_MarshalPKIXPublicKey pubKey)).
Proof.
  intros Hschema Herr.
  destruct (setPublicKeyAttributes_failure_cases d (setPublicKeyAttributes d prvKey).1
              prvKey (setPublicKeyAttributes d prvKey).2 (surjective_pairing _) Herr)
    as [[Heq Hcause] | (pubKey & pubKeyBytes & key & _ & _ & Hkey & Hout & _)].
  - rewrite Heq. by repeat split.
  - destruct Hout. by apply Hschema.
Qed.

(** An RSA key held by value, which is no [crypto.Signer]: the call fails
    and the resource data are as before. *)
Lemma setPublicKeyAttributes_failure_atomic_witness :
  HasError (@setPublicKeyAttributes Fixture.libs (Fixture.keyResource "" 2048)
              (KeyRSA Fixture.rsaKey)).2
  ∧ (@setPublicKeyAttributes Fixture.libs (Fixture.keyResource "" 2048)
       (KeyRSA Fixture.rsaKey)).1 = Fixture.keyResource "" 2048.
Proof.
  assert (Herr : HasError (@setPublicKeyAttributes Fixture.libs (Fixture.keyResource "" 2048)
                             (KeyRSA Fixture.rsaKey)).2).
  { intros Heq. discriminate Heq. }
  split; [exact Herr |].
  refine (proj1 (@setPublicKeyAttributes_failure_atomic Fixture.libs
                   (Fixture.keyResource "" 2048) (KeyRSA Fixture.rsaKey) _ Herr)).
  intros key Hkey. apply elem_of_list_to_set.
  do 2 apply list_elem_of_further. exact Hkey.
Defined.

(** ** Validity and early renewal *)

Lemma isCurrent_true (issuedAt : Timestamp) (spec : CertificateSpec) (asOf : Timestamp) :
  isCurrent issuedAt spec asOf = true
  ↔ asOf < issuedAt + ValidityHours spec * Hour - EarlyRenewalHours spec * Hour.
Proof. unfold isCurrent, Deadline. apply Z.ltb_lt. Qed.

Lemma isCurrent_false (issuedAt : Timestamp) (spec : CertificateSpec) (asOf : Timestamp) :
  isCurrent issuedAt spec asOf = false
  ↔ asOf >= issuedAt + ValidityHours spec * Hour - EarlyRenewalHours spec * Hour.
Proof. unfold isCurrent, Deadline. rewrite Z.ltb_ge. lia. Qed.

Lemma issue_changes (st : State) (spec : CertificateSpec) (now : Timestamp) :
  issue st spec now ≠ st.
Proof.
  intros Heq. apply (f_equal issuances) in Heq. simpl in Heq. lia.
Qed.

(** C1: with validity and early renewal hours that are not negative, the
    certificate issued at [issuedAt] is current at [asOf] exactly when
    [asOf] is before [issuedAt] plus the validity less the early renewal;
    with ten hours and two it is current at [issuedAt] and seven hours
    later, and no longer nine hours later. *)
Theorem isCurrent_before_deadline (issuedAt : Timestamp) (spec : CertificateSpec)
    (asOf : Timestamp) :
  0 ≤ ValidityHours spec →
  0 ≤ EarlyRenewalHours spec →
  (isCurrent issuedAt spec asOf = true
   ↔ asOf < issuedAt + ValidityHours spec * Hour - EarlyRenewalHours spec * Hour)
  ∧ (ValidityHours spec = 10 → EarlyRenewalHours spec = 2 →
     isCurrent issuedAt spec issuedAt = true
     ∧ isCurrent issuedAt spec (issuedAt + 7 * Hour) = true
     ∧ isCurrent issuedAt spec (issuedAt + 9 * Hour) = false).
Proof.
  intros _ _. split; [apply isCurrent_true |].
  intros HV HE. rewrite !isCurrent_true, isCurrent_false, HV, HE.
  unfold Hour. lia.
Qed.

(** The clock settings of [TestAccSelfSignedCertRecreatesAfterExpired]:
    issued at 12:00, the certificate is current at 19:00 and not at 21:00. *)
Lemma isCurrent_before_deadline_witness :
  0 ≤ ValidityHours (selfSignedCertConfig 10 2)
  ∧ 0 ≤ EarlyRenewalHours (selfSignedCertConfig 10 2)
  ∧ isCurrent (setTimeForTest 2019 6 14 12) (selfSignedCertConfig 10 2)
      (setTimeForTest 2019 6 14 19) = true
  ∧ isCurrent (setTimeForTest 2019 6 14 12) (selfSignedCertConfig 10 2)
      (setTimeForTest 2019 6 14 21) = false.
Proof.
  assert (HV : 0 ≤ ValidityHours (selfSignedCertConfig 10 2)) by (simpl; lia).
  assert (HE : 0 ≤ EarlyRenewalHours (selfSignedCertConfig 10 2)) by (simpl; lia).
  split; [exact HV |]. split; [exact HE |].
  destruct (isCurrent_before_deadline (setTimeForTest 2019 6 14 12)
              (selfSignedCertConfig 10 2) (setTimeForTest 2019 6 14 19) HV HE)
    as [Hiff Hten].
  destruct (Hten eq_refl eq_refl) as (_ & H7 & H9).
  split; [exact H7 | exact H9].
Defined.

(** The run of [TestAccSelfSignedCertRecreatesAfterExpired]: the first three
    checks see the first certificate, the last one a new certificate. *)
Example run_RecreatesAfterExpired :
  runSteps initialState stepsRecreatesAfterExpired = [Some 0; Some 0; Some 0; Some 1].
Proof. reflexivity. Qed.

(** C2: with a certificate in the state, applying a configuration with
    another early renewal at [asOf] issues a new certificate exactly when
    [asOf] has reached the stored issuance time plus the validity less the
    new early renewal, and the new certificate is issued at [asOf]; issued
    at T with ten hours of validity, at T + 4h the certificate is kept with
    an early renewal of three hours and replaced with one of nine. *)
Theorem early_renewal_update (st : State) (cert : Certificate)
    (spec' : CertificateSpec) (asOf : Timestamp) :
  stored st = Some cert →
  (applyStep st spec' asOf ≠ st
   ↔ asOf >= NotBefore cert + ValidityHours spec' * Hour - EarlyRenewalHours spec' * Hour)
  ∧ (applyStep st spec' asOf = st ∨ applyStep st spec' asOf = issue st spec' asOf)
  ∧ (ValidityHours spec' = 10 → asOf = NotBefore cert + 4 * Hour →
     (EarlyRenewalHours spec' = 3 → applyStep st spec' asOf = st)
     ∧ (EarlyRenewalHours spec' = 9 → applyStep st spec' asOf = issue st spec' asOf
                                       ∧ applyStep st spec' asOf ≠ st)).
Proof.
  intros Hstored. unfold applyStep. rewrite Hstored.
  destruct (isCurrent (NotBefore cert) spec' asOf) eqn:Hcur.
  - apply isCurrent_true in Hcur. split; [| split].
    + split; [intros Hne; by destruct Hne | lia].
    + by left.
    + intros HV -> . split; [done |]. intros HE. rewrite HV, HE in Hcur.
      unfold Hour in Hcur. lia.
  - apply isCurrent_false in Hcur. split; [| split].
    + split; [intros _; exact Hcur | intros _; apply issue_changes].
    + by right.
    + intros HV ->. split.
      * intros HE. rewrite HV, HE in Hcur. unfold Hour in Hcur. lia.
      * intros _. split; [done | apply issue_changes].
Qed.

(** The last step of
    [TestAccSelfSignedCertNotRecreatedForEarlyRenewalUpdateInFuture]: the
    certificate of 12:00 is replaced at 16:00 under an early renewal of
    nine hours. *)
Lemma early_renewal_update_witness :
  stored (issue initialState (selfSignedCertConfig 10 2) (setTimeForTest 2019 6 14 12))
    = Some {| NotBefore := setTimeForTest 2019 6 14 12;
              NotAfter := setTimeForTest 2019 6 14 22;
              SerialNumber := 0 |}
  ∧ applyStep (issue initialState (selfSignedCertConfig 10 2) (setTimeForTest 2019 6 14 12))
      (selfSignedCertConfig 10 3) (setTimeForTest 2019 6 14 16)
    = issue initialState (selfSignedCertConfig 10 2) (setTimeForTest 2019 6 14 12)
  ∧ applyStep (issue initialState (selfSignedCertConfig 10 2) (setTimeForTest 2019 6 14 12))
      (selfSignedCertConfig 10 9) (setTimeForTest 2019 6 14 16)
    ≠ issue initialState (selfSignedCertConfig 10 2) (setTimeForTest 2019 6 14 12).
Proof.
  assert (Hstored :
    stored (issue initialState (selfSignedCertConfig 10 2) (setTimeForTest 2019 6 14 12))
    = Some {| NotBefore := setTimeForTest 2019 6 14 12;
              NotAfter := setTimeForTest 2019 6 14 22;
              SerialNumber := 0 |}) by reflexivity.
  split; [exact Hstored |]. split.
  - exact (proj1 (proj2 (proj2 (early_renewal_update _ _ (selfSignedCertConfig 10 3)
                                  (setTimeForTest 2019 6 14 16) Hstored))
                    eq_refl eq_refl) eq_refl).
  - exact (proj2 (proj2 (proj2 (proj2 (early_renewal_update _ _ (selfSignedCertConfig 10 9)
                                         (setTimeForTest 2019 6 14 16) Hstored))
                           eq_refl eq_refl) eq_refl)).
Defined.

(** The run of [TestAccSelfSignedCertNotRecreatedForEarlyRenewalUpdateInFuture]. *)
Example run_EarlyRenewalUpdateInFuture :
  runSteps initialState stepsEarlyRenewalUpdateInFuture = [Some 0; Some 0; Some 0; Some 1].
Proof. reflexivity. Qed.

(** ** Validation *)

(** C7: a configuration with negative validity hours or negative early
    renewal hours is rejected with a validation error and no cryptographic
    step is attempted; the error has, for each negative field, a message
    with the name of the field, the bound 0 and the value given. *)
Theorem negative_hours_rejected `{GoLibs} (st : State) (spec : CertificateSpec)
    (private_key_pem : string) (now : Timestamp) :
  ValidityHours spec < 0 ∨ EarlyRenewalHours spec < 0 →
  ∃ msgs,
    createSelfSignedCert st spec private_key_pem now = (inr (ValidationError msgs), [])
    ∧ (ValidityHours spec < 0 →
       "expected validity_period_hours to be at least (0), got "
         +:+ fmt_d (ValidityHours spec) ∈ msgs)
    ∧ (EarlyRenewalHours spec < 0 →
       "expected early_renewal_hours to be at least (0), got "
         +:+ fmt_d (EarlyRenewalHours spec) ∈ msgs).
Proof.
  intros Hneg. exists (validateSpec spec).
  unfold createSelfSignedCert, validateSpec, intAtLeast.
  destruct (Z.ltb_spec (ValidityHours spec) 0) as [HV | HV];
    destruct (Z.ltb_spec (EarlyRenewalHours spec) 0) as [HE | HE];
    simpl; try lia.
  - split; [done |]. split; intros _; elem_of_list.
  - split; [done |]. split; [intros _; elem_of_list | lia].
  - split; [done |]. split; [lia | intros _; elem_of_list].
Qed.

(** The two configurations of [TestAccSelfSignedCert_InvalidConfigs]. *)
Lemma negative_hours_rejected_witness :
  (ValidityHours (selfSignedCertConfig (-1) 0) < 0
   ∧ ∃ msgs,
       @createSelfSignedCert Fixture.libs initialState (selfSignedCertConfig (-1) 0)
         "does not matter" (setTimeForTest 2019 6 14 12)
       = (inr (ValidationError msgs), [])
       ∧ "expected validity_period_hours to be at least (0), got -1" ∈ msgs)
  ∧ (EarlyRenewalHours (selfSignedCertConfig 20 (-10)) < 0
     ∧ ∃ msgs,
         @createSelfSignedCert Fixture.libs initialState (selfSignedCertConfig 20 (-10))
           "does not matter" (setTimeForTest 2019 6 14 12)
         = (inr (ValidationError msgs), [])
         ∧ "expected early_renewal_hours to be at least (0), got -10" ∈ msgs).
Proof.
  assert (HV : ValidityHours (selfSignedCertConfig (-1) 0) < 0) by (simpl; lia).
  assert (HE : EarlyRenewalHours (selfSignedCertConfig 20 (-10)) < 0) by (simpl; lia).
  split.
  - split; [exact HV |].
    destruct (@negative_hours_rejected Fixture.libs initialState (selfSignedCertConfig (-1) 0)
                "does not matter" (setTimeForTest 2019 6 14 12) (or_introl HV))
      as (msgs & Hcall & Hmsg & _).
    exists msgs. split; [exact Hcall | exact (Hmsg HV)].
  - split; [exact HE |].
    destruct (@negative_hours_rejected Fixture.libs initialState (selfSignedCertConfig 20 (-10))
                "does not matter" (setTimeForTest 2019 6 14 12) (or_intror HE))
      as (msgs & Hcall & _ & Hmsg).
    exists msgs. split; [exact Hcall | exact (Hmsg HE)].
Defined.

(** The messages are the ones the test expects. *)
Example invalid_configs_messages :
  validateSpec (selfSignedCertConfig (-1) 0)
    = ["expected validity_period_hours to be at least (0), got -1"]
  ∧ validateSpec (selfSignedCertConfig 20 (-10))
    = ["expected early_renewal_hours to be at least (0), got -10"].
Proof. split; reflexivity. Qed.

(** With hours that are not negative the same key is rejected by the parser,
    which is then the first cryptographic step. *)
Example valid_hours_reach_parser :
  @createSelfSignedCert Fixture.libs initialState (selfSignedCertConfig 20 10)
    "does not matter" (setTimeForTest 2019 6 14 12)
  = (inr (KeyError "failed to decode PEM block: decoded bytes 0, undecoded 15"),
     [StepParsePrivateKey]).
Proof. reflexivity. Qed.

(** * Further properties of [common_key.go] *)

(** ** [parsePrivateKeyPEM] *)

Section ParseFacts.

Context `{GoLibs}.

(** What a call that succeeded went through. *)
Lemma parsePrivateKeyPEM_Ok_inv (keyPEMBytes : list byte)
    (prvKey : crypto_PrivateKey) (algorithm : Algorithm) :
  parsePrivateKeyPEM keyPEMBytes = Ok (prvKey, algorithm) →
  ∃ block rest preamble parser,
    pem_Decode keyPEMBytes = (Some block, rest)
    ∧ PEMBlockToPEMPreamble block = Ok preamble
    ∧ keyParsers !! preamble = Some parser
    ∧ parser (pem_Bytes block) = Ok prvKey
    ∧ privateKeyToAlgorithm prvKey = Ok algorithm.
Proof.
  unfold parsePrivateKeyPEM. intros Hcall.
  destruct (pem_Decode keyPEMBytes) as [[block |] rest] eqn:Hdec; [| discriminate].
  destruct (PEMBlockToPEMPreamble block) as [preamble | e] eqn:Hpre; [| discriminate].
  destruct (keyParsers !! preamble) as [parser |] eqn:Hlook; [| discriminate].
  destruct (parser (pem_Bytes block)) as [k | e] eqn:Hparse; [| discriminate].
  destruct (privateKeyToAlgorithm k) as [a | e] eqn:Halg; [| discriminate].
  inversion Hcall; subst. exists block, rest, preamble, parser.
  repeat split; first [reflexivity | assumption].
Qed.

(** The keys of the parsers, by the preamble they are registered for. *)
Lemma keyParsers_shape (preamble : PEMPreamble) (parser : keyParser)
    (der : list byte) (prvKey : crypto_PrivateKey) :
  keyParsers !! preamble = Some parser →
  parser der = Ok prvKey →
  (preamble = PreamblePrivateKeyRSA ∧ ∃ k, prvKey = KeyRSAPtr k)
  ∨ (preamble = PreamblePrivateKeyEC ∧ ∃ k, prvKey = KeyECDSAPtr k)
  ∨ (preamble = PreamblePrivateKeyPKCS8
     ∧ ((∃ k, prvKey = KeyRSAPtr k) ∨ (∃ k, prvKey = KeyECDSAPtr k)
        ∨ (∃ k, prvKey = KeyED25519 k)
        ∨ prvKey = KeyOther "*ecdh.PrivateKey" None)).
Proof.
  intros Hlook Hparse.
  destruct (keyParsers_lookup _ _ Hlook) as [[-> ->] | [[-> ->] | [-> ->]]];
    simpl in Hparse.
  - destruct (x509_ParsePKCS1PrivateKey der); inversion Hparse. left. eauto.
  - destruct (x509_ParseECPrivateKey der); inversion Hparse. right; left. eauto.
  - destruct (x509_ParsePKCS8PrivateKey der) as [[k | k | k | k] |]; inversion Hparse;
      right; right; (split; [done |]); eauto.
Qed.

End ParseFacts.

(** X1: a key [parsePrivateKeyPEM] returns is a [*rsa.PrivateKey], a
    [*ecdsa.PrivateKey] or an [ed25519.PrivateKey]; the algorithm returned
    with it is the one [privateKeyToAlgorithm] gives, one of RSA, ECDSA and
    ED25519; and [privateKeyToPublicKey] succeeds on the key. *)
Theorem parsePrivateKeyPEM_sound `{GoLibs} (keyPEMBytes : list byte)
    (prvKey : crypto_PrivateKey) (algorithm : Algorithm) :
  parsePrivateKeyPEM keyPEMBytes = Ok (prvKey, algorithm) →
  ((∃ k, prvKey = KeyRSAPtr k ∧ algorithm = RSA)
   ∨ (∃ k, prvKey = KeyECDSAPtr k ∧ algorithm = ECDSA)
   ∨ (∃ k, prvKey = KeyED25519 k ∧ algorithm = ED25519))
  ∧ privateKeyToAlgorithm prvKey = Ok algorithm
  ∧ ∃ pubKey, privateKeyToPublicKey prvKey = Ok pubKey.
Proof.
  intros Hcall.
  destruct (parsePrivateKeyPEM_Ok_inv _ _ _ Hcall)
    as (block & rest & preamble & parser & _ & _ & Hlook & Hparse & Halg).
  destruct (keyParsers_shape _ _ _ _ Hlook Hparse)
    as [[_ [k ->]] | [[_ [k ->]] | [_ [[k ->] | [[k ->] | [[k ->] | ->]]]]]];
    try discriminate Halg;
    (split; [| split; [exact Halg | by eexists]]);
    inversion Halg; eauto.
Qed.

(** An ECDSA key in a PKCS#8 block. *)
Lemma parsePrivateKeyPEM_sound_witness :
  @parsePrivateKeyPEM Fixture.libs
    (Fixture.pemOf "PRIVATE KEY" (x01 :: Fixture.marshalEC Fixture.p256Key))
    = Ok (KeyECDSAPtr Fixture.p256Key, ECDSA)
  ∧ privateKeyToAlgorithm (KeyECDSAPtr Fixture.p256Key) = Ok ECDSA
  ∧ ∃ pubKey, privateKeyToPublicKey (KeyECDSAPtr Fixture.p256Key) = Ok pubKey.
Proof.
  assert (Hcall : @parsePrivateKeyPEM Fixture.libs
            (Fixture.pemOf "PRIVATE KEY" (x01 :: Fixture.marshalEC Fixture.p256Key))
            = Ok (KeyECDSAPtr Fixture.p256Key, ECDSA)) by (vm_compute; reflexivity).
  split; [exact Hcall |].
  exact (proj2 (@parsePrivateKeyPEM_sound Fixture.libs _ _ _ Hcall)).
Defined.

(** X2: when the block decoded from the input has a preamble with a
    registered parser and that parser accepts the bytes of the block,
    [parsePrivateKeyPEM] succeeds with the parsed key and its algorithm,
    but for the [*ecdh.PrivateKey] that the PKCS#8 parser returns for an
    X25519 key: there, and only there, it fails with "failed to determine
    key algorithm". Under the PKCS#1 and the SEC 1 preamble it succeeds. *)
Theorem parsePrivateKeyPEM_parsed_key `{GoLibs} (keyPEMBytes rest : list byte)
    (block : pem_Block) (preamble : PEMPreamble) (parser : keyParser)
    (prvKey : crypto_PrivateKey) :
  pem_Decode keyPEMBytes = (Some block, rest) →
  PEMBlockToPEMPreamble block = Ok preamble →
  keyParsers !! preamble = Some parser →
  parser (pem_Bytes block) = Ok prvKey →
  (∃ algorithm,
     parsePrivateKeyPEM keyPEMBytes = Ok (prvKey, algorithm)
     ∧ privateKeyToAlgorithm prvKey = Ok algorithm)
  ∨ (preamble = PreamblePrivateKeyPKCS8
     ∧ prvKey = KeyOther "*ecdh.PrivateKey" None
     ∧ parsePrivateKeyPEM keyPEMBytes
       = Err ("failed to determine key algorithm for private key of type *ecdh.PrivateKey"
              +:+ ": unsupported private key type: *ecdh.PrivateKey")).
Proof.
  intros Hdec Hpre Hlook Hparse.
  unfold parsePrivateKeyPEM. rewrite Hdec. cbv beta iota.
  rewrite Hpre. cbv beta iota.
  pose proof Hlook as Hlook'. unfold keyParser in Hlook' |- *.
  rewrite Hlook'. cbv beta iota. rewrite Hparse.
  destruct (keyParsers_shape _ _ _ _ Hlook Hparse)
    as [[_ [k ->]] | [[_ [k ->]] | [-> [[k ->] | [[k ->] | [[k ->] | ->]]]]]];
    first [ left; by eexists | right; by repeat split ].
Qed.

(** An RSA key in a PKCS#1 block, followed by text that is left over; and an
    X25519 key in a PKCS#8 block. *)
Lemma parsePrivateKeyPEM_parsed_key_witness :
  (∃ algorithm,
     @parsePrivateKeyPEM Fixture.libs
       (Fixture.pemOf "RSA PRIVATE KEY" (Fixture.marshalRSA Fixture.rsaKey)
        ++ list_byte_of_string "trailing")
     = Ok (KeyRSAPtr Fixture.rsaKey, algorithm)
     ∧ privateKeyToAlgorithm (KeyRSAPtr Fixture.rsaKey) = Ok algorithm)
  ∧ @parsePrivateKeyPEM Fixture.libs (Fixture.pemOf "PRIVATE KEY" (x03 :: replicate 32 x09))
    = Err ("failed to determine key algorithm for private key of type *ecdh.PrivateKey"
           +:+ ": unsupported private key type: *ecdh.PrivateKey").
Proof.
  split.
  - destruct (@parsePrivateKeyPEM_parsed_key Fixture.libs
                (Fixture.pemOf "RSA PRIVATE KEY" (Fixture.marshalRSA Fixture.rsaKey)
                 ++ list_byte_of_string "trailing")
                (list_byte_of_string "trailing")
                {| pem_Type := "RSA PRIVATE KEY"; pem_Headers := ∅;
                   pem_Bytes := Fixture.marshalRSA Fixture.rsaKey |}
                PreamblePrivateKeyRSA
                (λ der, as_PrivateKey KeyRSAPtr (Fixture.parseRSA der))
                (KeyRSAPtr Fixture.rsaKey))
      as [Hok | (Heq & _)].
    + vm_compute. reflexivity.
    + reflexivity.
    + reflexivity.
    + reflexivity.
    + exact Hok.
    + discriminate Heq.
  - destruct (@parsePrivateKeyPEM_parsed_key Fixture.libs
                (Fixture.pemOf "PRIVATE KEY" (x03 :: replicate 32 x09)) []
                {| pem_Type := "PRIVATE KEY"; pem_Headers := ∅;
                   pem_Bytes := x03 :: replicate 32 x09 |}
                PreamblePrivateKeyPKCS8
                (λ der, as_PrivateKey pkcs8_any (Fixture.parsePKCS8 der))
                (KeyOther "*ecdh.PrivateKey" None))
      as [(algorithm & _ & Halg) | (_ & _ & Hfail)].
    + vm_compute. reflexivity.
    + reflexivity.
    + reflexivity.
    + reflexivity.
    + discriminate Halg.
    + exact Hfail.
Defined.

(** X3: when the block decoded from the input has a preamble other than those
    of the three private key formats (a public key, a certificate, a
    certificate request), [parsePrivateKeyPEM] fails with "unable to
    determine parser for PEM preamble" and the label. *)
Theorem parsePrivateKeyPEM_no_parser `{GoLibs} (keyPEMBytes rest : list byte)
    (block : pem_Block) (preamble : PEMPreamble) :
  pem_Decode keyPEMBytes = (Some block, rest) →
  PEMBlockToPEMPreamble block = Ok preamble →
  preamble ∉ [PreamblePrivateKeyRSA; PreamblePrivateKeyEC; PreamblePrivateKeyPKCS8] →
  parsePrivateKeyPEM keyPEMBytes
    = Err ("unable to determine parser for PEM preamble: " +:+ PEMPreamble_String preamble).
Proof.
  intros Hdec Hpre Hnot.
  unfold parsePrivateKeyPEM. rewrite Hdec. cbv beta iota. rewrite Hpre.
  destruct preamble; try reflexivity; exfalso; apply Hnot; elem_of_list.
Qed.

(** A public key given where a private key is expected. *)
Lemma parsePrivateKeyPEM_no_parser_witness :
  @parsePrivateKeyPEM Fixture.libs (Fixture.pemOf "PUBLIC KEY" [x00; x0c; xa1; x00; x11])
    = Err "unable to determine parser for PEM preamble: PUBLIC KEY".
Proof.
  refine (@parsePrivateKeyPEM_no_parser Fixture.libs _ []
            {| pem_Type := "PUBLIC KEY"; pem_Headers := ∅;
               pem_Bytes := [x00; x0c; xa1; x00; x11] |}
            PreamblePublicKey _ _ _).
  - vm_compute. reflexivity.
  - reflexivity.
  - intros Hin.
    repeat (apply elem_of_cons in Hin as [Heq | Hin]; [discriminate Heq |]).
    by apply elem_of_nil in Hin.
Defined.

(** X4: the bytes after the first block play no part: two inputs from which
    the same block is decoded give the same result, whatever follows the
    block in each. *)
Theorem parsePrivateKeyPEM_ignores_rest `{GoLibs} (keyPEMBytes1 keyPEMBytes2 : list byte)
    (block : pem_Block) (rest1 rest2 : list byte) :
  pem_Decode keyPEMBytes1 = (Some block, rest1) →
  pem_Decode keyPEMBytes2 = (Some block, rest2) →
  parsePrivateKeyPEM keyPEMBytes1 = parsePrivateKeyPEM keyPEMBytes2.
Proof.
  intros Hdec1 Hdec2. unfold parsePrivateKeyPEM. by rewrite Hdec1, Hdec2.
Qed.

(** The same block alone and followed by another line. *)
Lemma parsePrivateKeyPEM_ignores_rest_witness :
  @parsePrivateKeyPEM Fixture.libs
    (Fixture.pemOf "EC PRIVATE KEY" (Fixture.marshalEC Fixture.p256Key))
  = @parsePrivateKeyPEM Fixture.libs
      (Fixture.pemOf "EC PRIVATE KEY" (Fixture.marshalEC Fixture.p256Key)
       ++ list_byte_of_string "-----BEGIN").
Proof.
  refine (@parsePrivateKeyPEM_ignores_rest Fixture.libs _ _
            {| pem_Type := "EC PRIVATE KEY"; pem_Headers := ∅;
               pem_Bytes := Fixture.marshalEC Fixture.p256Key |}
            [] (list_byte_of_string "-----BEGIN") _ _);
    vm_compute; reflexivity.
Defined.

(** X5: in a block of PKCS#1 the key returned is an RSA key and in a block of
    SEC 1 an ECDSA key, whatever the bytes are; only a PKCS#8 block leaves
    the algorithm to its content. *)
Theorem parsePrivateKeyPEM_preamble_algorithm `{GoLibs} (keyPEMBytes rest : list byte)
    (block : pem_Block) (preamble : PEMPreamble)
    (prvKey : crypto_PrivateKey) (algorithm : Algorithm) :
  pem_Decode keyPEMBytes = (Some block, rest) →
  PEMBlockToPEMPreamble block = Ok preamble →
  parsePrivateKeyPEM keyPEMBytes = Ok (prvKey, algorithm) →
  (preamble = PreamblePrivateKeyRSA → algorithm = RSA ∧ ∃ k, prvKey = KeyRSAPtr k)
  ∧ (preamble = PreamblePrivateKeyEC → algorithm = ECDSA ∧ ∃ k, prvKey = KeyECDSAPtr k)
  ∧ preamble ∈ [PreamblePrivateKeyRSA; PreamblePrivateKeyEC; PreamblePrivateKeyPKCS8].
Proof.
  intros Hdec Hpre Hcall.
  destruct (parsePrivateKeyPEM_Ok_inv _ _ _ Hcall)
    as (block' & rest' & preamble' & parser & Hdec' & Hpre' & Hlook & Hparse & Halg).
  rewrite Hdec in Hdec'. inversion Hdec'; subst block' rest'.
  rewrite Hpre in Hpre'. inversion Hpre'; subst preamble'.
  destruct (keyParsers_shape _ _ _ _ Hlook Hparse)
    as [[-> [k ->]] | [[-> [k ->]] | [-> _]]].
  - inversion Halg. split; [eauto |]. split; [discriminate | elem_of_list].
  - inversion Halg. split; [discriminate |]. split; [eauto | elem_of_list].
  - split; [discriminate |]. split; [discriminate | elem_of_list].
Qed.

(** An RSA key in a PKCS#1 block. *)
Lemma parsePrivateKeyPEM_preamble_algorithm_witness :
  @parsePrivateKeyPEM Fixture.libs
    (Fixture.pemOf "RSA PRIVATE KEY" (Fixture.marshalRSA Fixture.rsaKey))
    = Ok (KeyRSAPtr Fixture.rsaKey, RSA)
  ∧ RSA = RSA ∧ ∃ k, KeyRSAPtr Fixture.rsaKey = KeyRSAPtr k.
Proof.
  assert (Hcall : @parsePrivateKeyPEM Fixture.libs
            (Fixture.pemOf "RSA PRIVATE KEY" (Fixture.marshalRSA Fixture.rsaKey))
            = Ok (KeyRSAPtr Fixture.rsaKey, RSA)) by (vm_compute; reflexivity).
  split; [exact Hcall |].
  refine (proj1 (@parsePrivateKeyPEM_preamble_algorithm Fixture.libs _ []
                   {| pem_Type := "RSA PRIVATE KEY"; pem_Headers := ∅;
                      pem_Bytes := Fixture.marshalRSA Fixture.rsaKey |}
                   PreamblePrivateKeyRSA _ _ _ _ Hcall) eq_refl).
  - vm_compute. reflexivity.
  - reflexivity.
Defined.

(** ** [parsePrivateKeyOpenSSHPEM] *)

(** X6: a key that [ssh.ParseRawPrivateKey] returns with a type the switch of
    [privateKeyToAlgorithm] does not name, such as a DSA key, is rejected,
    also when its type is a [crypto.Signer], with a message that has the
    name of the type twice; a key of any of the six types named is returned
    with one of the algorithms RSA, ECDSA and ED25519. *)
Theorem parsePrivateKeyOpenSSHPEM_key_types `{GoLibs} (keyOpenSSHPEMBytes : list byte)
    (prvKey : crypto_PrivateKey) :
  ssh_ParseRawPrivateKey keyOpenSSHPEMBytes = Ok prvKey →
  (∀ T signer, prvKey = KeyOther T signer →
     parsePrivateKeyOpenSSHPEM keyOpenSSHPEMBytes
       = Err ("failed to determine key algorithm for private key of type " +:+ T
              +:+ ": unsupported private key type: " +:+ T))
  ∧ ((∀ T signer, prvKey ≠ KeyOther T signer) →
     ∃ algorithm,
       parsePrivateKeyOpenSSHPEM keyOpenSSHPEMBytes = Ok (prvKey, algorithm)
       ∧ privateKeyToAlgorithm prvKey = Ok algorithm
       ∧ algorithm ∈ [RSA; ECDSA; ED25519]).
Proof.
  intros Hparse. unfold parsePrivateKeyOpenSSHPEM. rewrite Hparse. split.
  - intros T signer ->. reflexivity.
  - intros Hshape. destruct prvKey; try (by destruct (Hshape T signer));
      eexists; (split; [reflexivity |]); (split; [reflexivity |]); elem_of_list.
Qed.

(** A DSA key, and an ECDSA key. *)
Lemma parsePrivateKeyOpenSSHPEM_key_types_witness :
  @parsePrivateKeyOpenSSHPEM Fixture.libsWithDSA [x03; x00]
    = Err ("failed to determine key algorithm for private key of type *dsa.PrivateKey"
           +:+ ": unsupported private key type: *dsa.PrivateKey")
  ∧ ∃ algorithm,
      @parsePrivateKeyOpenSSHPEM Fixture.libsWithDSA (x01 :: Fixture.marshalEC Fixture.p256Key)
        = Ok (KeyECDSAPtr Fixture.p256Key, algorithm)
      ∧ privateKeyToAlgorithm (KeyECDSAPtr Fixture.p256Key) = Ok algorithm
      ∧ algorithm ∈ [RSA; ECDSA; ED25519].
Proof.
  split.
  - exact (proj1 (@parsePrivateKeyOpenSSHPEM_key_types Fixture.libsWithDSA [x03; x00]
                    (KeyOther "*dsa.PrivateKey" None) eq_refl)
             "*dsa.PrivateKey" None eq_refl).
  - refine (proj2 (@parsePrivateKeyOpenSSHPEM_key_types Fixture.libsWithDSA
                     (x01 :: Fixture.marshalEC Fixture.p256Key)
                     (KeyECDSAPtr Fixture.p256Key) _) _).
    + vm_compute. reflexivity.
    + intros T signer Heq. discriminate Heq.
Defined.

(** ** The generators and the identification of the algorithm *)

(** X7: a key generated by the generator registered for an algorithm is
    identified by [privateKeyToAlgorithm] as a key of that algorithm, and
    [privateKeyToPublicKey] succeeds on it. *)
Theorem keyGenerators_algorithm `{GoLibs} (algorithm : Algorithm) (gen : keyGenerator)
    (d : ResourceData) (rand : rand_Reader) (prvKey : crypto_PrivateKey) :
  keyGenerators !! algorithm = Some gen →
  gen d rand = Ok prvKey →
  privateKeyToAlgorithm prvKey = Ok algorithm
  ∧ ∃ pubKey, privateKeyToPublicKey prvKey = Ok pubKey.
Proof.
  intros Hlook Hgen.
  destruct (generated_key_shape _ _ _ _ _ Hlook Hgen)
    as [[-> [k ->]] | [[-> [k ->]] | [-> [k ->]]]];
    (split; [reflexivity | by eexists]).
Qed.

(** An ED25519 key of the sample libraries. *)
Lemma keyGenerators_algorithm_witness :
  @keyGenerators Fixture.libs !! ED25519 = Some (@generateED25519 Fixture.libs)
  ∧ ∃ prvKey,
      @generateED25519 Fixture.libs (Fixture.keyResource "" 0) 7 = Ok prvKey
      ∧ privateKeyToAlgorithm prvKey = Ok ED25519
      ∧ ∃ pubKey, privateKeyToPublicKey prvKey = Ok pubKey.
Proof.
  split; [reflexivity |].
  eexists. split; [reflexivity |].
  exact (@keyGenerators_algorithm Fixture.libs ED25519 (@generateED25519 Fixture.libs)
           (Fixture.keyResource "" 0) 7 _ eq_refl eq_refl).
Defined.

(** ** [setPublicKeyAttributes] *)

Section SetFacts.

Context `{GoLibs}.

(** What [d.Set] leaves alone, whether it fails or not. *)
Lemma d_Set_frame (d d' : ResourceData) key value (e : option error) :
  d_Set d key value = (d', e) →
  rd_schema d' = rd_schema d ∧ rd_id d' = rd_id d ∧ rd_int d' = rd_int d
  ∧ ∀ key', key' ≠ key → rd_str d' !! key' = rd_str d !! key'.
Proof.
  unfold d_Set. case_decide; intros Heq; inversion Heq; subst; simpl.
  - repeat split. intros key' Hne. by rewrite lookup_insert_ne.
  - by repeat split.
Qed.

(** The call when the public key is derived and marshalled and the schema
    has the four attributes. *)
Lemma setPublicKeyAttributes_Ok (d : ResourceData) (prvKey : crypto_PrivateKey)
    (pubKey : crypto_PublicKey) (pubKeyBytes : list byte) :
  privateKeyToPublicKey prvKey = Ok pubKey →
  x509_MarshalPKIXPublicKey pubKey = Ok pubKeyBytes →
  (∀ key, key ∈ publicKeyAttributes → key ∈ rd_schema d) →
  setPublicKeyAttributes d prvKey =
    (let ssh :=
       match ssh_NewPublicKey pubKey with
       | Ok sshPubKey =>
           (string_of_list_byte (ssh_MarshalAuthorizedKey sshPubKey),
            ssh_FingerprintLegacyMD5 sshPubKey,
            ssh_FingerprintSHA256 sshPubKey)
       | Err _ => ("", "", "")
       end in
     {| rd_schema := rd_schema d;
        rd_id := hashForState (string_of_list_byte pubKeyBytes);
        rd_int := rd_int d;
        rd_str :=
          <["public_key_fingerprint_sha256" := ssh.2]>
            (<["public_key_fingerprint_md5" := ssh.1.2]>
               (<["public_key_openssh" := ssh.1.1]>
                  (<["public_key_pem" :=
                       string_of_list_byte
                         (pem_EncodeToMemory {| pem_Type := "PUBLIC KEY"; pem_Headers := ∅;
                                                pem_Bytes := pubKeyBytes |})]>
                     (rd_str d)))) |}, []).
Proof.
  intros Hpub Hmarshal Hin.
  unfold setPublicKeyAttributes. rewrite Hpub, Hmarshal.
  destruct (ssh_NewPublicKey pubKey) as [sshPubKey | e];
    rewrite d_Set_ok by (simpl; apply Hin; elem_of_list);
    rewrite d_Set_ok by (simpl; apply Hin; elem_of_list);
    rewrite d_Set_ok by (simpl; apply Hin; elem_of_list);
    rewrite d_Set_ok by (simpl; apply Hin; elem_of_list);
    reflexivity.
Qed.

(** What a call without error went through. *)
Lemma setPublicKeyAttributes_Ok_inv (d d' : ResourceData) (prvKey : crypto_PrivateKey) :
  setPublicKeyAttributes d prvKey = (d', []) →
  ∃ pubKey pubKeyBytes,
    privateKeyToPublicKey prvKey = Ok pubKey
    ∧ x509_MarshalPKIXPublicKey pubKey = Ok pubKeyBytes
    ∧ ∀ key, key ∈ publicKeyAttributes → key ∈ rd_schema d.
Proof.
  unfold setPublicKeyAttributes. intros Hcall.
  destruct (privateKeyToPublicKey prvKey) as [pubKey | e] eqn:Hpub; [| discriminate].
  destruct (x509_MarshalPKIXPublicKey pubKey) as [pubKeyBytes | e] eqn:Hmarshal;
    [| discriminate].
  exists pubKey, pubKeyBytes. split; [done |]. split; [done |].
  destruct (d_Set (d_SetId d _) "public_key_pem" _) as [d1 e1] eqn:Hset1.
  apply d_Set_inv in Hset1 as (Hs1 & _ & [(-> & Hin1 & _) | (-> & _ & ->)]);
    [| discriminate].
  destruct (match ssh_NewPublicKey pubKey with Ok _ => _ | Err _ => _ end)
    as [[pubKeySSH md5] sha256].
  destruct (d_Set d1 "public_key_openssh" pubKeySSH) as [d2 e2] eqn:Hset2.
  apply d_Set_inv in Hset2 as (Hs2 & _ & [(-> & Hin2 & _) | (-> & _ & ->)]);
    [| discriminate].
  destruct (d_Set d2 "public_key_fingerprint_md5" md5) as [d3 e3] eqn:Hset3.
  apply d_Set_inv in Hset3 as (Hs3 & _ & [(-> & Hin3 & _) | (-> & _ & ->)]);
    [| discriminate].
  destruct (d_Set d3 "public_key_fingerprint_sha256" sha256) as [d4 e4] eqn:Hset4.
  apply d_Set_inv in Hset4 as (Hs4 & _ & [(-> & Hin4 & _) | (-> & _ & ->)]);
    [| discriminate].
  rewrite Hs3, Hs2, Hs1 in Hin4. rewrite Hs2, Hs1 in Hin3. rewrite Hs1 in Hin2.
  simpl in Hin1, Hin2, Hin3, Hin4.
  intros key Hkey.
  repeat (apply elem_of_cons in Hkey as [-> | Hkey]; [assumption |]).
  by apply elem_of_nil in Hkey.
Qed.

(** The identifier after the call, once the public key is marshalled. *)
Lemma setPublicKeyAttributes_rd_id (d : ResourceData) (prvKey : crypto_PrivateKey)
    (pubKey : crypto_PublicKey) (pubKeyBytes : list byte) :
  privateKeyToPublicKey prvKey = Ok pubKey →
  x509_MarshalPKIXPublicKey pubKey = Ok pubKeyBytes →
  rd_id (setPublicKeyAttributes d prvKey).1 = hashForState (string_of_list_byte pubKeyBytes).
Proof.
  intros Hpub Hmarshal. unfold setPublicKeyAttributes. rewrite Hpub, Hmarshal.
  destruct (d_Set (d_SetId d _) "public_key_pem" _) as [d1 [e1 |]] eqn:Hset1;
    apply d_Set_frame in Hset1 as (_ & Hi1 & _); simpl in Hi1; [exact Hi1 |].
  destruct (match ssh_NewPublicKey pubKey with Ok _ => _ | Err _ => _ end)
    as [[pubKeySSH md5] sha256].
  destruct (d_Set d1 "public_key_openssh" pubKeySSH) as [d2 [e2 |]] eqn:Hset2;
    apply d_Set_frame in Hset2 as (_ & Hi2 & _); [simpl; congruence |].
  destruct (d_Set d2 "public_key_fingerprint_md5" md5) as [d3 [e3 |]] eqn:Hset3;
    apply d_Set_frame in Hset3 as (_ & Hi3 & _); [simpl; congruence |].
  destruct (d_Set d3 "public_key_fingerprint_sha256" sha256) as [d4 [e4 |]] eqn:Hset4;
    apply d_Set_frame in Hset4 as (_ & Hi4 & _); simpl; congruence.
Qed.

End SetFacts.

(** X8: whether it fails or not, [setPublicKeyAttributes] leaves the schema,
    the integer attributes and every string attribute other than the four
    public key attributes as they were, and returns at most one
    diagnostic. *)
Theorem setPublicKeyAttributes_frame `{GoLibs} (d : ResourceData)
    (prvKey : crypto_PrivateKey) :
  rd_schema (setPublicKeyAttributes d prvKey).1 = rd_schema d
  ∧ rd_int (setPublicKeyAttributes d prvKey).1 = rd_int d
  ∧ (∀ key, key ∉ publicKeyAttributes →
       rd_str (setPublicKeyAttributes d prvKey).1 !! key = rd_str d !! key)
  ∧ (length (setPublicKeyAttributes d prvKey).2 ≤ 1)%nat.
Proof.
  assert (Hne : ∀ key, key ∉ publicKeyAttributes →
                  key ≠ "public_key_pem" ∧ key ≠ "public_key_openssh"
                  ∧ key ≠ "public_key_fingerprint_md5"
                  ∧ key ≠ "public_key_fingerprint_sha256").
  { intros key Hkey. repeat split; intros ->; apply Hkey; elem_of_list. }
  unfold setPublicKeyAttributes.
  destruct (privateKeyToPublicKey prvKey) as [pubKey | e]; [| by repeat split].
  destruct (x509_MarshalPKIXPublicKey pubKey) as [pubKeyBytes | e]; [| by repeat split].
  destruct (d_Set (d_SetId d _) "public_key_pem" _) as [d1 e1] eqn:Hset1.
  apply d_Set_frame in Hset1 as (Hs1 & _ & Hn1 & Hv1). simpl in Hs1, Hn1, Hv1.
  destruct e1 as [e1 |].
  { simpl. repeat split; try done. intros key Hkey. apply Hv1, Hne, Hkey. }
  destruct (match ssh_NewPublicKey pubKey with Ok _ => _ | Err _ => _ end)
    as [[pubKeySSH md5] sha256].
  destruct (d_Set d1 "public_key_openssh" pubKeySSH) as [d2 e2] eqn:Hset2.
  apply d_Set_frame in Hset2 as (Hs2 & _ & Hn2 & Hv2).
  destruct e2 as [e2 |].
  { simpl. repeat split; try congruence; [| lia].
    intros key Hkey. destruct (Hne key Hkey) as (? & ? & ? & ?).
    rewrite Hv2, Hv1; done. }
  destruct (d_Set d2 "public_key_fingerprint_md5" md5) as [d3 e3] eqn:Hset3.
  apply d_Set_frame in Hset3 as (Hs3 & _ & Hn3 & Hv3).
  destruct e3 as [e3 |].
  { simpl. repeat split; try congruence; [| lia].
    intros key Hkey. destruct (Hne key Hkey) as (? & ? & ? & ?).
    rewrite Hv3, Hv2, Hv1; done. }
  destruct (d_Set d3 "public_key_fingerprint_sha256" sha256) as [d4 e4] eqn:Hset4.
  apply d_Set_frame in Hset4 as (Hs4 & _ & Hn4 & Hv4).
  destruct e4 as [e4 |]; simpl; (repeat split; try congruence; [| lia]);
    intros key Hkey; destruct (Hne key Hkey) as (? & ? & ? & ?);
    rewrite Hv4, Hv3, Hv2, Hv1; done.
Qed.

(** X9: [setPublicKeyAttributes] returns no error exactly when the public key
    is derived and marshalled and every one of the four attributes can be
    set; that [ssh.NewPublicKey] fails or not plays no part. *)
Theorem setPublicKeyAttributes_succeeds_iff `{GoLibs} (d : ResourceData)
    (prvKey : crypto_PrivateKey) :
  (setPublicKeyAttributes d prvKey).2 = []
  ↔ (∃ pubKey pubKeyBytes,
       privateKeyToPublicKey prvKey = Ok pubKey
       ∧ x509_MarshalPKIXPublicKey pubKey = Ok pubKeyBytes)
    ∧ (∀ key, key ∈ publicKeyAttributes → key ∈ rd_schema d).
Proof.
  split.
  - intros Hnil.
    destruct (setPublicKeyAttributes_Ok_inv d (setPublicKeyAttributes d prvKey).1 prvKey)
      as (pubKey & pubKeyBytes & Hpub & Hmarshal & Hin).
    { rewrite <- Hnil. apply surjective_pairing. }
    split; [by exists pubKey, pubKeyBytes | exact Hin].
  - intros [(pubKey & pubKeyBytes & Hpub & Hmarshal) Hin].
    by rewrite (setPublicKeyAttributes_Ok _ _ _ _ Hpub Hmarshal Hin).
Qed.

(** An RSA key and a schema with the attributes: no error. *)
Lemma setPublicKeyAttributes_succeeds_iff_witness :
  (@setPublicKeyAttributes Fixture.libs (Fixture.keyResource "" 2048)
     (KeyRSAPtr Fixture.rsaKey)).2 = [].
Proof.
  apply (proj2 (@setPublicKeyAttributes_succeeds_iff Fixture.libs
                  (Fixture.keyResource "" 2048) (KeyRSAPtr Fixture.rsaKey))).
  split.
  - eexists _, _. split; reflexivity.
  - intros key Hkey. apply elem_of_list_to_set.
    do 2 apply list_elem_of_further. exact Hkey.
Defined.

(** X10: after a call without error the identifier is the hash of the
    marshalled public key, [public_key_pem] holds the PEM encoding of a
    "PUBLIC KEY" block with these bytes, and the three OpenSSH attributes
    hold the authorized key and the two fingerprints of the SSH public key
    when there is one, and are all three empty when there is none. *)
Theorem setPublicKeyAttributes_success `{GoLibs} (d d' : ResourceData)
    (prvKey : crypto_PrivateKey) :
  setPublicKeyAttributes d prvKey = (d', []) →
  ∃ pubKey pubKeyBytes,
    privateKeyToPublicKey prvKey = Ok pubKey
    ∧ x509_MarshalPKIXPublicKey pubKey = Ok pubKeyBytes
    ∧ rd_id d' = hashForState (string_of_list_byte pubKeyBytes)
    ∧ rd_str d' !! "public_key_pem"
      = Some (string_of_list_byte
                (pem_EncodeToMemory {| pem_Type := "PUBLIC KEY"; pem_Headers := ∅;
                                       pem_Bytes := pubKeyBytes |}))
    ∧ match ssh_NewPublicKey pubKey with
      | Ok sshPubKey =>
          rd_str d' !! "public_key_openssh"
            = Some (string_of_list_byte (ssh_MarshalAuthorizedKey sshPubKey))
          ∧ rd_str d' !! "public_key_fingerprint_md5"
            = Some (ssh_FingerprintLegacyMD5 sshPubKey)
          ∧ rd_str d' !! "public_key_fingerprint_sha256"
            = Some (ssh_FingerprintSHA256 sshPubKey)
      | Err _ =>
          rd_str d' !! "public_key_openssh" = Some ""
          ∧ rd_str d' !! "public_key_fingerprint_md5" = Some ""
          ∧ rd_str d' !! "public_key_fingerprint_sha256" = Some ""
      end.
Proof.
  intros Hcall.
  destruct (setPublicKeyAttributes_Ok_inv _ _ _ Hcall)
    as (pubKey & pubKeyBytes & Hpub & Hmarshal & Hin).
  exists pubKey, pubKeyBytes. split; [done |]. split; [done |].
  rewrite (setPublicKeyAttributes_Ok _ _ _ _ Hpub Hmarshal Hin) in Hcall.
  inversion Hcall; subst d'; clear Hcall. simpl.
  split; [done |]. split; [by simplify_map_eq |].
  destruct (ssh_NewPublicKey pubKey); simpl; repeat split; by simplify_map_eq.
Qed.

(** A key on P-256, which has an SSH public key in the sample libraries. *)
Lemma setPublicKeyAttributes_success_witness :
  ∃ d',
    @setPublicKeyAttributes Fixture.libs (Fixture.keyResource "P256" 0)
      (KeyECDSAPtr Fixture.p256Key) = (d', [])
    ∧ rd_id d' = "01000100"
    ∧ rd_str d' !! "public_key_openssh"
      = Some ("ecdsa-sha2-nistp 01000100010002" +:+ Fixture.newline)
    ∧ rd_str d' !! "public_key_fingerprint_md5" = Some "MD5:0100"
    ∧ rd_str d' !! "public_key_fingerprint_sha256" = Some "SHA256:01000100".
Proof.
  eexists. split; [apply surjective_pairing |].
  destruct (@setPublicKeyAttributes_success Fixture.libs (Fixture.keyResource "P256" 0)
              (@setPublicKeyAttributes Fixture.libs (Fixture.keyResource "P256" 0)
                 (KeyECDSAPtr Fixture.p256Key)).1
              (KeyECDSAPtr Fixture.p256Key) (surjective_pairing _))
    as (pubKey & pubKeyBytes & Hpub & Hmarshal & Hid & _ & Hssh).
  inversion Hpub; subst pubKey. inversion Hmarshal; subst pubKeyBytes.
  split; [exact Hid |]. exact Hssh.
Defined.

(** X11: a call without error is idempotent: the same call on the resource
    data it returned succeeds again and leaves them as they are. *)
Theorem setPublicKeyAttributes_idempotent `{GoLibs} (d d' : ResourceData)
    (prvKey : crypto_PrivateKey) :
  setPublicKeyAttributes d prvKey = (d', []) →
  setPublicKeyAttributes d' prvKey = (d', []).
Proof.
  intros Hcall.
  destruct (setPublicKeyAttributes_Ok_inv _ _ _ Hcall)
    as (pubKey & pubKeyBytes & Hpub & Hmarshal & Hin).
  rewrite (setPublicKeyAttributes_Ok _ _ _ _ Hpub Hmarshal Hin) in Hcall.
  injection Hcall as Hd'.
  assert (Hin' : ∀ key, key ∈ publicKeyAttributes → key ∈ rd_schema d')
    by (by rewrite <- Hd').
  rewrite (setPublicKeyAttributes_Ok _ _ _ _ Hpub Hmarshal Hin').
  subst d'. simpl. do 2 f_equal. apply map_eq. intros key.
  rewrite !lookup_insert. repeat case_decide; congruence.
Qed.

(** The call above, made a second time. *)
Lemma setPublicKeyAttributes_idempotent_witness :
  @setPublicKeyAttributes Fixture.libs
    (@setPublicKeyAttributes Fixture.libs (Fixture.keyResource "P256" 0)
       (KeyECDSAPtr Fixture.p256Key)).1
    (KeyECDSAPtr Fixture.p256Key)
  = ((@setPublicKeyAttributes Fixture.libs (Fixture.keyResource "P256" 0)
        (KeyECDSAPtr Fixture.p256Key)).1, []).
Proof.
  apply (@setPublicKeyAttributes_idempotent Fixture.libs (Fixture.keyResource "P256" 0)).
  apply surjective_pairing.
Defined.

(** X12: the identifier set by [setPublicKeyAttributes] is a function of the
    public key alone: two private keys with the same public key, on any two
    resource data, get the same identifier, the hash of the marshalled
    public key, also when a later [d.Set] fails. *)
Theorem setPublicKeyAttributes_id_of_public_key `{GoLibs} (d1 d2 : ResourceData)
    (prvKey1 prvKey2 : crypto_PrivateKey) (pubKey : crypto_PublicKey)
    (pubKeyBytes : list byte) :
  privateKeyToPublicKey prvKey1 = Ok pubKey →
  privateKeyToPublicKey prvKey2 = Ok pubKey →
  x509_MarshalPKIXPublicKey pubKey = Ok pubKeyBytes →
  rd_id (setPublicKeyAttributes d1 prvKey1).1 = hashForState (string_of_list_byte pubKeyBytes)
  ∧ rd_id (setPublicKeyAttributes d2 prvKey2).1 = rd_id (setPublicKeyAttributes d1 prvKey1).1.
Proof.
  intros Hpub1 Hpub2 Hmarshal.
  rewrite (setPublicKeyAttributes_rd_id d1 _ _ _ Hpub1 Hmarshal).
  rewrite (setPublicKeyAttributes_rd_id d2 _ _ _ Hpub2 Hmarshal).
  done.
Qed.

(** An ED25519 key held by value and the same key behind a pointer, on a
    schema with the attributes and on one where [public_key_openssh] cannot
    be set. *)
Lemma setPublicKeyAttributes_id_of_public_key_witness :
  rd_id (@setPublicKeyAttributes Fixture.libs Fixture.pemOnlyResource
           (KeyED25519Ptr (replicate 32 x07 ++ replicate 32 x08))).1
  = rd_id (@setPublicKeyAttributes Fixture.libs (Fixture.keyResource "" 0)
             (KeyED25519 (replicate 32 x07 ++ replicate 32 x08))).1.
Proof.
  exact (proj2 (@setPublicKeyAttributes_id_of_public_key Fixture.libs
                  (Fixture.keyResource "" 0) Fixture.pemOnlyResource
                  (KeyED25519 (replicate 32 x07 ++ replicate 32 x08))
                  (KeyED25519Ptr (replicate 32 x07 ++ replicate 32 x08))
                  (PubED25519 (replicate 32 x08)) (x02 :: replicate 32 x08)
                  eq_refl eq_refl eq_refl)).
Defined.

(** ** The causes of failure *)

(** X13: [parsePrivateKeyPEM] fails for one of five causes only: no block is
    decoded; the label of the block is not a known preamble, and the error
    is that of [PEMBlockToPEMPreamble]; the preamble has no parser; the
    parser rejects the bytes of the block, and its error is returned behind
    the preamble; or the PKCS#8 parser returns a [*ecdh.PrivateKey], whose
    algorithm cannot be determined. *)
Theorem parsePrivateKeyPEM_failure_causes `{GoLibs} (keyPEMBytes : list byte) (e : error) :
  parsePrivateKeyPEM keyPEMBytes = Err e →
  (pem_Decode keyPEMBytes).1 = None
  ∨ ∃ block rest,
      pem_Decode keyPEMBytes = (Some block, rest)
      ∧ (PEMBlockToPEMPreamble block = Err e
         ∨ ∃ preamble,
             PEMBlockToPEMPreamble block = Ok preamble
             ∧ ((keyParsers !! preamble = None
                 ∧ e = "unable to determine parser for PEM preamble: "
                       +:+ PEMPreamble_String preamble)
                ∨ ∃ parser,
                    keyParsers !! preamble = Some parser
                    ∧ ((∃ err,
                          parser (pem_Bytes block) = Err err
                          ∧ e = "failed to parse private key given PEM preamble '"
                                +:+ PEMPreamble_String preamble +:+ "': " +:+ err)
                       ∨ (preamble = PreamblePrivateKeyPKCS8
                          ∧ parser (pem_Bytes block) = Ok (KeyOther "*ecdh.PrivateKey" None)
                          ∧ e = "failed to determine key algorithm for private key of type "
                                +:+ "*ecdh.PrivateKey"
                                +:+ ": unsupported private key type: *ecdh.PrivateKey")))).
Proof.
  unfold parsePrivateKeyPEM. intros Hcall.
  destruct (pem_Decode keyPEMBytes) as [[block |] rest] eqn:Hdec; [| by left].
  right. exists block, rest. split; [done |].
  destruct (PEMBlockToPEMPreamble block) as [preamble | e'] eqn:Hpre;
    [| left; congruence].
  right. exists preamble. split; [done |].
  destruct (keyParsers !! preamble) as [parser |] eqn:Hlook;
    [| left; split; [reflexivity | congruence]].
  right. exists parser. split; [reflexivity |].
  destruct (parser (pem_Bytes block)) as [prvKey | err] eqn:Hparse.
  - destruct (keyParsers_shape _ _ _ _ Hlook Hparse)
      as [[_ [k ->]] | [[_ [k ->]] | [-> [[k ->] | [[k ->] | [[k ->] | ->]]]]]];
      try discriminate Hcall.
    right. split; [done |]. split; [done |]. by inversion Hcall.
  - left. exists err. split; [done |]. congruence.
Qed.

(** A PKCS#1 block with a byte that is no key. *)
Lemma parsePrivateKeyPEM_failure_causes_witness :
  @parsePrivateKeyPEM Fixture.libs (Fixture.pemOf "RSA PRIVATE KEY" [x00])
    = Err ("failed to parse private key given PEM preamble 'RSA PRIVATE KEY': "
           +:+ "x509: failed to parse private key")
  ∧ ((@pem_Decode Fixture.libs (Fixture.pemOf "RSA PRIVATE KEY" [x00])).1 = None
     ∨ ∃ block rest,
         @pem_Decode Fixture.libs (Fixture.pemOf "RSA PRIVATE KEY" [x00]) = (Some block, rest)).
Proof.
  assert (Hcall : @parsePrivateKeyPEM Fixture.libs (Fixture.pemOf "RSA PRIVATE KEY" [x00])
            = Err ("failed to parse private key given PEM preamble 'RSA PRIVATE KEY': "
                   +:+ "x509: failed to parse private key")) by (vm_compute; reflexivity).
  split; [exact Hcall |].
  destruct (@parsePrivateKeyPEM_failure_causes Fixture.libs _ _ Hcall)
    as [Hnone | (block & rest & Hdec & _)].
  - by left.
  - right. by exists block, rest.
Defined.

(** X14: a generator of [keyGenerators] fails only when the library fails or
    the curve is not supported: the RSA and the ECDSA generator return the
    error of [rsa.GenerateKey] and [ecdsa.GenerateKey] as it is, the ED25519
    generator returns the error of [ed25519.GenerateKey] behind "failed to
    generate ED25519 key". *)
Theorem keyGenerators_failure_causes `{GoLibs} (algorithm : Algorithm) (gen : keyGenerator)
    (d : ResourceData) (rand : rand_Reader) (e : error) :
  keyGenerators !! algorithm = Some gen →
  gen d rand = Err e →
  (algorithm = RSA ∧ rsa_GenerateKey rand (d_GetInt d "rsa_bits") = Err e)
  ∨ (algorithm = ECDSA
     ∧ (((d_GetString d "ecdsa_curve" ∉ [P224; P256; P384; P521])
         ∧ e = "invalid ECDSA curve; supported values are: [P224 P256 P384 P521]")
        ∨ ∃ curve, ecdsa_GenerateKey curve rand = Err e))
  ∨ (algorithm = ED25519
     ∧ ∃ err, ed25519_GenerateKey rand = Err err
              ∧ e = "failed to generate ED25519 key: " +:+ err).
Proof.
  intros Hlook Hgen.
  destruct (keyGenerators_lookup _ _ Hlook) as [[-> ->] | [[-> ->] | [-> ->]]].
  - left. split; [done |]. unfold generateRSA in Hgen.
    destruct (rsa_GenerateKey _ _); simpl in Hgen; congruence.
  - right; left. split; [done |]. unfold generateECDSA in Hgen.
    destruct (String.eqb_spec (d_GetString d "ecdsa_curve") P224) as [_ | Hn1].
    { right. exists elliptic_P224.
      destruct (ecdsa_GenerateKey _ _); simpl in Hgen; congruence. }
    destruct (String.eqb_spec (d_GetString d "ecdsa_curve") P256) as [_ | Hn2].
    { right. exists elliptic_P256.
      destruct (ecdsa_GenerateKey _ _); simpl in Hgen; congruence. }
    destruct (String.eqb_spec (d_GetString d "ecdsa_curve") P384) as [_ | Hn3].
    { right. exists elliptic_P384.
      destruct (ecdsa_GenerateKey _ _); simpl in Hgen; congruence. }
    destruct (String.eqb_spec (d_GetString d "ecdsa_curve") P521) as [_ | Hn4].
    { right. exists elliptic_P521.
      destruct (ecdsa_GenerateKey _ _); simpl in Hgen; congruence. }
    left. split.
    + intros Hin.
      repeat (apply elem_of_cons in Hin as [Heq | Hin]; [congruence |]).
      by apply elem_of_nil in Hin.
    + inversion Hgen. reflexivity.
  - right; right. split; [done |]. unfold generateED25519 in Hgen.
    destruct (ed25519_GenerateKey rand) as [[pub key] | err]; [discriminate |].
    exists err. split; [done |]. by inversion Hgen.
Qed.

(** An RSA key of eight bits is refused by the sample library, and the
    generator returns its error. *)
Lemma keyGenerators_failure_causes_witness :
  @generateRSA Fixture.libs (Fixture.keyResource "" 8) 7 = Err "crypto/rsa: key too small"
  ∧ @rsa_GenerateKey Fixture.libs 7 (d_GetInt (Fixture.keyResource "" 8) "rsa_bits")
    = Err "crypto/rsa: key too small".
Proof.
  assert (Hgen : @generateRSA Fixture.libs (Fixture.keyResource "" 8) 7
                 = Err "crypto/rsa: key too small") by reflexivity.
  split; [exact Hgen |].
  destruct (@keyGenerators_failure_causes Fixture.libs RSA (@generateRSA Fixture.libs)
              (Fixture.keyResource "" 8) 7 _ eq_refl Hgen)
    as [[_ Hlib] | [[Heq _] | [Heq _]]].
  - exact Hlib.
  - discriminate Heq.
  - discriminate Heq.
Defined.
